(** * Nestera backend: credential service, role guard, webhook check,
      registration DTO and Stellar transaction listing

    A shallow embedding of the TypeScript sources.  Services talk to
    collaborators that live outside the code under study (the user store,
    bcrypt, the JWT signer, Horizon, the Soroban RPC server).  Every call
    to one of them is an explicit node of a small program tree; a run of
    the tree against a handler for the collaborators yields the final
    world, the trace of calls and log lines, and the returned value or
    the exception thrown. *)

From stdpp Require Import base option strings gmap list pretty.
From Stdlib Require Import ZArith Lia.

Open Scope Z_scope.
Open Scope string_scope.

(** ** JavaScript values and objects *)

(** The values that flow through the embedded code.  [VUndef] is what a
    property read yields when the property is missing; [VAsset] is an
    instance of the SDK's [Asset] class, [VObj] any other object. *)
Inductive JsVal : Type :=
| VUndef
| VNull
| VBool (b : bool)
| VNum (n : Z)
| VStr (s : string)
| VAsset
| VObj.

#[global] Instance JsVal_eq_dec : EqDecision JsVal.
Proof. solve_decision. Defined.

(** A plain object: a finite map from property names to values. *)
Abbreviation JsObject := (gmap string JsVal).

(** [o[k]]: a missing property reads as [undefined]. *)
Definition get (o : JsObject) (k : string) : JsVal := default VUndef (o !! k).

(** JavaScript truthiness ([if (v)], [v && ...], [!v]). *)
Definition truthy (v : JsVal) : bool :=
  match v with
  | VUndef | VNull => false
  | VBool b => b
  | VNum n => negb (Z.eqb n 0)
  | VStr s => negb (String.eqb s EmptyString)
  | VAsset | VObj => true
  end.

(** [typeof v === 'string'] *)
Definition is_string (v : JsVal) : bool :=
  match v with VStr _ => true | _ => false end.

(** [v instanceof Asset] *)
Definition instanceof_Asset (v : JsVal) : bool :=
  match v with VAsset => true | _ => false end.

(** [v === w] on the values above. *)
Definition strict_eq (v w : JsVal) : bool := bool_decide (v = w).

(** String conversion as done by a template literal. *)
Definition toString (v : JsVal) : string :=
  match v with
  | VUndef => "undefined"
  | VNull => "null"
  | VBool true => "true"
  | VBool false => "false"
  | VNum n => pretty n
  | VStr s => s
  | VAsset | VObj => "[object Object]"
  end.

(** ** Exceptions *)

(** What a collaborator rejects with: an [Error] carrying a message. *)
Record JsError : Type := { message : string }.

(** Exceptions seen by a caller of the services: the three HTTP
    exceptions the sources construct, or a collaborator's error travelling
    upwards untouched. *)
Inductive Exception : Type :=
| ConflictException (msg : string)
| UnauthorizedException (msg : string)
| ForbiddenException (msg : string)
| Uncaught (e : JsError).

(** [(error as Error).message] *)
Definition exn_message (e : Exception) : string :=
  match e with
  | ConflictException m | UnauthorizedException m | ForbiddenException m => m
  | Uncaught e => message e
  end.

(** ** Collaborator calls *)

Inductive Call : Type :=
| UserService_findByEmail (email : string)
| UserService_create (data : JsObject)
| bcrypt_hash (data : string) (saltOrRounds : Z)
| bcrypt_compare (data : string) (encrypted : JsVal)
| JwtService_sign (payload : JsObject)
| Horizon_transactions (account : string) (limit : Z) (order : string)
| Tx_operations (tx : JsObject)
| Rpc_getHealth.

(** The type of the value each call resolves to.  A lookup by email yields
    a record or nothing; the two Horizon calls yield [response.records]. *)
Definition Resp (c : Call) : Type :=
  match c with
  | UserService_findByEmail _ => option JsObject
  | UserService_create _ => JsObject
  | bcrypt_hash _ _ => string
  | bcrypt_compare _ _ => bool
  | JwtService_sign _ => string
  | Horizon_transactions _ _ _ => list JsObject
  | Tx_operations _ => list JsObject
  | Rpc_getHealth => JsObject
  end.

(** A settled promise. *)
Inductive Settled (A : Type) : Type :=
| Fulfilled (a : A)
| Rejected (e : JsError).
Arguments Fulfilled {A} a.
Arguments Rejected {A} e.

Inductive Level : Type := LogLevel | WarnLevel | ErrorLevel.

(** ** Programs *)

Inductive Prog (A : Type) : Type :=
| Ret (a : A)
| Throw (e : Exception)
| Call_then (c : Call) (k : Settled (Resp c) → Prog A)
| Log_then (lvl : Level) (msg : string) (k : Prog A).
Arguments Ret {A} a.
Arguments Throw {A} e.
Arguments Call_then {A} c k.
Arguments Log_then {A} lvl msg k.

Fixpoint bind {A B} (p : Prog A) (f : A → Prog B) : Prog B :=
  match p with
  | Ret a => f a
  | Throw e => Throw e
  | Call_then c k => Call_then c (λ r, bind (k r) f)
  | Log_then lvl msg k => Log_then lvl msg (bind k f)
  end.

#[global] Instance Prog_ret : MRet Prog := @Ret.
#[global] Instance Prog_bind : MBind Prog := λ A B f p, bind p f.

(** [await c]: the value of the call, or its rejection rethrown. *)
Definition await (c : Call) : Prog (Resp c) :=
  Call_then c (λ r, match r with
                    | Fulfilled x => Ret x
                    | Rejected e => Throw (Uncaught e)
                    end).

(** [try { p } catch (error) { h error }] *)
Fixpoint try_catch {A} (p : Prog A) (h : Exception → Prog A) : Prog A :=
  match p with
  | Ret a => Ret a
  | Throw e => h e
  | Call_then c k => Call_then c (λ r, try_catch (k r) h)
  | Log_then lvl msg k => Log_then lvl msg (try_catch k h)
  end.

(** [this.logger.<lvl>(msg)] *)
Definition logger (lvl : Level) (msg : string) : Prog unit :=
  Log_then lvl msg (Ret ()).

(** ** Running a program *)

Inductive Event : Type :=
| Called (c : Call) (r : Settled (Resp c))
| Logged (lvl : Level) (msg : string).

Inductive Result (A : Type) : Type :=
| Returned (a : A)
| Threw (e : Exception).
Arguments Returned {A} a.
Arguments Threw {A} e.

Record Outcome (W A : Type) : Type :=
  { final : W; trace : list Event; result : Result A }.
Arguments final {W A} o.
Arguments trace {W A} o.
Arguments result {W A} o.

(** A handler answers each call in the current world and gives the next
    world. *)
Definition Handler (W : Type) : Type := W → ∀ c : Call, W * Settled (Resp c).

Fixpoint run {W A} (h : Handler W) (w : W) (p : Prog A) : Outcome W A :=
  match p with
  | Ret a => {| final := w; trace := []; result := Returned a |}
  | Throw e => {| final := w; trace := []; result := Threw e |}
  | Call_then c k =>
      let '(w', r) := h w c in
      let o := run h w' (k r) in
      {| final := final o; trace := Called c r :: trace o; result := result o |}
  | Log_then lvl msg k =>
      let o := run h w k in
      {| final := final o; trace := Logged lvl msg :: trace o; result := result o |}
  end.

(** The calls of a trace, in order. *)
Fixpoint calls (t : list Event) : list Call :=
  match t with
  | [] => []
  | Called c _ :: t => c :: calls t
  | Logged _ _ :: t => calls t
  end.

(** The calls of a trace that were rejected, with their errors. *)
Fixpoint failures (t : list Event) : list (Call * JsError) :=
  match t with
  | [] => []
  | Called c (Rejected e) :: t => (c, e) :: failures t
  | _ :: t => failures t
  end.

(** ** Credential service (auth.service) *)

Module RegisterDto.
Record t : Type := { email : string; password : string; name : option string }.

(** The own properties of a DTO instance, as the spread [...dto] sees
    them.  An omitted optional [name] is no property at all. *)
Definition props (dto : t) : JsObject :=
  let o : JsObject :=
    <["email" := VStr (email dto)]> (<["password" := VStr (password dto)]> ∅) in
  match name dto with
  | Some n => <["name" := VStr n]> o
  | None => o
  end.
End RegisterDto.

Module LoginDto.
Record t : Type := { email : string; password : string }.
End LoginDto.

Module AuthService.

(** [{ user, accessToken }] *)
Record RegisterResult : Type := { user : JsObject; accessToken : string }.

(** [{ accessToken }] *)
Record LoginResult : Type := { login_accessToken : string }.

(** [this.jwtService.sign({ sub: userId, email })] *)
Definition generateToken (userId email : JsVal) : Prog string :=
  await (JwtService_sign (<["sub" := userId]> (<["email" := email]> ∅))).

Definition register (dto : RegisterDto.t) : Prog RegisterResult :=
  existingUser ← await (UserService_findByEmail (RegisterDto.email dto));
  match existingUser with
  | Some _ => Throw (ConflictException "User already exists")
  | None =>
      hashedPassword ← await (bcrypt_hash (RegisterDto.password dto) 10);
      user ← await (UserService_create
                      (<["password" := VStr hashedPassword]> (RegisterDto.props dto)));
      accessToken ← generateToken (get user "id") (get user "email");
      Ret {| user := user; accessToken := accessToken |}
  end.

(** Resolves to the record without its [password] property, or to
    [null] ([None]). *)
Definition validateUser (email pass : string) : Prog (option JsObject) :=
  user ← await (UserService_findByEmail email);
  match user with
  | Some user =>
      if truthy (get user "password") then
        ok ← await (bcrypt_compare pass (get user "password"));
        if ok : bool then Ret (Some (delete "password" user)) else Ret None
      else Ret None
  | None => Ret None
  end.

Definition login (dto : LoginDto.t) : Prog LoginResult :=
  user ← validateUser (LoginDto.email dto) (LoginDto.password dto);
  match user with
  | None => Throw (UnauthorizedException "Invalid credentials")
  | Some user =>
      accessToken ← generateToken (get user "id") (get user "email");
      Ret {| login_accessToken := accessToken |}
  end.

End AuthService.

(** ** Registration and login DTOs (auth.dto) *)

(** The class-validator decorators the DTO classes carry. *)
Inductive Decorator : Type :=
| IsEmail
| IsString
| MinLength (min : nat)
| MaxLength (max : nat).

(** Property name and decorators, in source order. *)
Definition RegisterDto_decorators : list (string * list Decorator) :=
  [ ("email", [IsEmail]);
    ("password", [IsString; MinLength 8; MaxLength 32]);
    ("name", [IsString]) ].

Definition LoginDto_decorators : list (string * list Decorator) :=
  [ ("email", [IsEmail]);
    ("password", [IsString]) ].

Section Validation.

(** validator.js's e-mail syntax check, used by [@IsEmail()]. *)
Variable isEmail : string → bool.

(** validator.js's count of the characters of a string, which
    [@MinLength()] and [@MaxLength()] compare with their bound. *)
Variable characters : string → nat.

(** What each decorator demands of a property value, as class-validator
    checks it: every one of the four first requires a string. *)
Definition satisfies (d : Decorator) (v : JsVal) : bool :=
  match d, v with
  | IsEmail, VStr s => isEmail s
  | IsString, VStr _ => true
  | MinLength min, VStr s => bool_decide (min ≤ characters s)%nat
  | MaxLength max, VStr s => bool_decide (characters s ≤ max)%nat
  | _, _ => false
  end.

(** The violated constraints of a request body, property by property. *)
Definition validate (decorators : list (string * list Decorator))
    (body : JsObject) : list (string * Decorator) :=
  '(prop, ds) ← decorators;
  d ← filter (λ d, satisfies d (get body prop) = false) ds;
  [(prop, d)].

End Validation.

(** ** Role guard (roles.guard) *)

(** Modelled from the spec: roles.enum is not in the source tree; the role
    vocabulary is exactly USER and ADMIN. *)
Inductive Role : Type := USER | ADMIN.

#[global] Instance Role_eq_dec : EqDecision Role.
Proof. solve_decision. Defined.

(** [request.user], as far as the guard reads it. *)
Record RequestUser : Type := { role : Role }.

(** What the guard reads from its execution context: the roles the
    reflector finds for [ROLES_KEY] on the handler or else the class
    ([undefined] when there is no decorator), and the request's user. *)
Record ExecutionContext : Type :=
  { getAllAndOverride : option (list Role);
    request_user : option RequestUser }.

(** [xs.join(sep)] *)
Fixpoint join (sep : string) (xs : list string) : string :=
  match xs with
  | [] => EmptyString
  | [x] => x
  | x :: xs => x +:+ sep +:+ join sep xs
  end.

Section RolesGuard.

(** The string value of each enum member. *)
Variable roleValue : Role → string.

Definition canActivate (context : ExecutionContext) : Result bool :=
  match getAllAndOverride context with
  | None | Some [] => Returned true
  | Some requiredRoles =>
      match request_user context with
      | None => Threw (ForbiddenException "No authenticated user found on request.")
      | Some user =>
          let hasRole := existsb (λ r, bool_decide (role user = r)) requiredRoles in
          if negb hasRole then
            Threw (ForbiddenException
                     ("Access denied. Required role(s): "
                      +:+ join ", " (roleValue <$> requiredRoles)
                      +:+ ". Your role: " +:+ roleValue (role user) +:+ "."))
          else Returned true
      end
  end.

End RolesGuard.

(** ** Webhook signature check *)

(** An HTTP response: status code and JSON body. *)
Record Response : Type := { status : Z; body : JsObject }.

Section Webhook.

(** Hex-encoded HMAC-SHA256 of a message under a key. *)
Variable hmac_sha256_hex : string → string → string.

(** Modelled from the spec: the webhook signature verifier is not in the
    source tree (only its end-to-end test is).  It computes the MAC of
    the raw body under the webhook secret and compares it with the
    signature taken from the designated header. *)
Definition verifySignature (secret rawBody : string)
    (signature : option string) : Result unit :=
  match signature with
  | None => Threw (UnauthorizedException "missing signature")
  | Some s =>
      if bool_decide (s = hmac_sha256_hex secret rawBody)
      then Returned ()
      else Threw (UnauthorizedException "invalid signature")
  end.

(** Modelled from the spec: the webhook endpoint is not in the source
    tree.  A verified request gets the fixed acknowledgment with status
    200 (as the end-to-end test expects), any signature failure an
    unauthorized status (401) carrying the failure's message only. *)
Definition postWebhook (secret rawBody : string)
    (signature : option string) : Response :=
  match verifySignature secret rawBody signature with
  | Returned _ => {| status := 200; body := {[ "status" := VStr "success" ]} |}
  | Threw e =>
      {| status := 401;
         body := <["statusCode" := VNum 401]> {[ "message" := VStr (exn_message e) ]} |}
  end.

End Webhook.

(** ** Stellar service (stellar.service) *)

Module StellarService.

Definition getHealth : Prog JsObject :=
  try_catch
    (health ← await Rpc_getHealth;
     Ret health)
    (λ error,
       Log_then ErrorLevel "Failed to get Stellar RPC health" (Throw error)).

(** The asset of an operation, by the chain of tests in the source; the
    token stays at its default when none applies. *)
Definition tokenOf (op : JsObject) (token : JsVal) : JsVal :=
  if strict_eq (get op "asset_type") (VStr "native")
     || instanceof_Asset (get op "asset")
  then VStr "XLM"
  else if is_string (get op "asset_code") && truthy (get op "asset_code")
  then get op "asset_code"
  else if truthy (get op "buying_asset_code")
  then get op "buying_asset_code"
  else if truthy (get op "selling_asset_code")
  then get op "selling_asset_code"
  else token.

(** The object literal [{ date: tx.created_at, amount, token,
    hash: tx.hash }]. *)
Definition TransactionDto (tx : JsObject) (amount token : JsVal) : JsObject :=
  <["date" := get tx "created_at"]>
    (<["amount" := amount]>
       (<["token" := token]>
          (<["hash" := get tx "hash"]> ∅))).

(** The callback mapped over the transaction records.  The pair is the
    two local variables [amount] and [token]. *)
Definition toTransactionDto (tx : JsObject) : Prog JsObject :=
  let token := VStr "XLM" in
  let amount := VStr "0" in
  '(amount, token) ←
    try_catch
      (ops ← await (Tx_operations tx);
       match ops with
       | op :: _ =>
           let amount :=
             if is_string (get op "amount") then get op "amount" else amount in
           Ret (amount, tokenOf op token)
       | [] => Ret (amount, token)
       end)
      (λ opError,
         Log_then WarnLevel
           ("Could not fetch operations for tx " +:+ toString (get tx "hash")
            +:+ ": " +:+ exn_message opError)
           (Ret (amount, token)));
  Ret (TransactionDto tx amount token).

(** [limit] is [None] when the caller leaves the argument out.  The
    callbacks started by [Promise.all] are run one after the other, in
    the order of the records. *)
Definition getRecentTransactions (publicKey : string) (limit : option Z)
    : Prog (list JsObject) :=
  let limit := default 10 limit in
  try_catch
    (transactions ← await (Horizon_transactions publicKey limit "desc");
     results ← mapM toTransactionDto transactions;
     Ret results)
    (λ error,
       Log_then ErrorLevel
         ("Failed to fetch transactions for " +:+ publicKey +:+ ": "
          +:+ exn_message error)
         (Ret [])).

End StellarService.

(** ** Properties of runs used in the statements *)

(** A program swallows nothing when, in every run, a rejected call is
    what the caller gets thrown. *)
Definition propagates_failures {A} (p : Prog A) : Prop :=
  ∀ W (h : Handler W) (w : W) c e,
    (c, e) ∈ failures (trace (run h w p)) →
    result (run h w p) = Threw (Uncaught e).

(** Horizon honours the page size asked for. *)
Definition honours_limit {W} (h : Handler W) : Prop :=
  ∀ w account limit order w' (records : list JsObject),
    h w (Horizon_transactions account limit order) = (w', Fulfilled records) →
    (Z.of_nat (length records) ≤ limit)%Z.

(** The four properties of a [TransactionDto]. *)
Definition TransactionDto_keys : gset string :=
  {[ "date"; "amount"; "token"; "hash" ]}.

(** An operation without amount or asset properties. *)
Definition no_amount_or_asset (op : JsObject) : Prop :=
  op !! "amount" = None ∧ op !! "asset_type" = None ∧ op !! "asset" = None ∧
  op !! "asset_code" = None ∧ op !! "buying_asset_code" = None ∧
  op !! "selling_asset_code" = None.

(** ** A test double for the collaborators *)

Module Mock.

(** An in-memory world: the user table keyed by e-mail, the ledger keyed
    by account with newest transaction first, operations keyed by
    transaction hash, and switches for the two remote services. *)
Record World : Type :=
  { users : gmap string JsObject;
    nextId : nat;
    horizonUp : bool;
    ledger : gmap string (list JsObject);
    operations : gmap string (list JsObject);
    rpcUp : bool }.

Definition toy_hash (data : string) (rounds : Z) : string :=
  "$2b$" +:+ pretty rounds +:+ "$" +:+ data.

Definition toy_token (payload : JsObject) : string :=
  "jwt/" +:+ toString (get payload "sub") +:+ "/" +:+ toString (get payload "email").

Definition unreachable : JsError := {| message := "connect ECONNREFUSED" |}.
Definition not_found : JsError := {| message := "Not Found" |}.
Definition bad_request : JsError := {| message := "Bad Request" |}.

(** Modelled from the spec: the store's lookup-by-email capability
    (user.service is not in the source tree).  Lookup is by exact e-mail
    and yields the credential record, hash included. *)
Definition findByEmail (w : World) (email : string) : option JsObject :=
  users w !! email.

(** Modelled from the spec: the store's create-user capability (user.service
    is not in the source tree).  The stored record is the data given, with
    a fresh id and the role defaulted to USER; it is what the call
    resolves to. *)
Definition create (w : World) (data : JsObject) : World * Settled JsObject :=
  let email := toString (get data "email") in
  match users w !! email with
  | Some _ => (w, Rejected {| message := "duplicate key value" |})
  | None =>
      let record : JsObject :=
        <["id" := VStr ("u" +:+ pretty (nextId w))]> (<["role" := VStr "USER"]> data) in
      ({| users := <[email := record]> (users w);
          nextId := S (nextId w);
          horizonUp := horizonUp w;
          ledger := ledger w;
          operations := operations w;
          rpcUp := rpcUp w |},
       Fulfilled record)
  end.

Definition handler : Handler World := λ w c,
  match c return World * Settled (Resp c) with
  | UserService_findByEmail email => (w, Fulfilled (findByEmail w email))
  | UserService_create data => create w data
  | bcrypt_hash data rounds => (w, Fulfilled (toy_hash data rounds))
  | bcrypt_compare data encrypted =>
      (w, Fulfilled (existsb (λ rounds, strict_eq encrypted (VStr (toy_hash data rounds)))
                              (seqZ 4 28)))
  | JwtService_sign payload => (w, Fulfilled (toy_token payload))
  | Horizon_transactions account limit order =>
      if horizonUp w then
        if bool_decide (1 ≤ limit ≤ 200)%Z then
          match ledger w !! account with
          | Some txs => (w, Fulfilled (take (Z.to_nat limit) txs))
          | None => (w, Rejected not_found)
          end
        else (w, Rejected bad_request)
      else (w, Rejected unreachable)
  | Tx_operations tx =>
      if horizonUp w then
        match operations w !! toString (get tx "hash") with
        | Some ops => (w, Fulfilled ops)
        | None => (w, Rejected not_found)
        end
      else (w, Rejected unreachable)
  | Rpc_getHealth =>
      if rpcUp w then (w, Fulfilled {[ "status" := VStr "healthy" ]})
      else (w, Rejected unreachable)
  end.

Definition empty : World :=
  {| users := ∅; nextId := 1; horizonUp := true; ledger := ∅;
     operations := ∅; rpcUp := true |}.

(** Horizon and the RPC server both unreachable. *)
Definition offline : World :=
  {| users := ∅; nextId := 1; horizonUp := false; ledger := ∅;
     operations := ∅; rpcUp := false |}.

End Mock.

(** Every [bcrypt.hash] call of any run of the program uses cost [c]. *)
Definition hashes_with_cost (c : Z) {A} (p : Prog A) : Prop :=
  ∀ W (h : Handler W) (w : W) data rounds,
    bcrypt_hash data rounds ∈ calls (trace (run h w p)) → rounds = c.

(** [e] is a [ConflictException]. *)
Definition is_ConflictException {A} (r : Result A) : bool :=
  match r with Threw (ConflictException _) => true | _ => false end.

(** The error [login] throws on bad credentials. *)
Definition InvalidCredentials : Exception :=
  UnauthorizedException "Invalid credentials".

(** Sample requests and worlds, after the end-to-end scenarios. *)
Module Sample.

Definition registration : RegisterDto.t :=
  {| RegisterDto.email := "a@x.com";
     RegisterDto.password := "password123";
     RegisterDto.name := Some "Ada" |}.

Definition good_login : LoginDto.t :=
  {| LoginDto.email := "a@x.com"; LoginDto.password := "password123" |}.

Definition bad_login : LoginDto.t :=
  {| LoginDto.email := "a@x.com"; LoginDto.password := "wrong" |}.

(** The world once [registration] went through. *)
Definition registered : Mock.World :=
  final (run Mock.handler Mock.empty (AuthService.register registration)).

(** A ledger with three transactions of one account: the first is a
    payment of a native asset, the operations of the second cannot be
    fetched, the only operation of the third has neither amount nor
    asset. *)
Definition tx1 : JsObject :=
  <["hash" := VStr "h1"]> {[ "created_at" := VStr "2024-01-02T00:00:00Z" ]}.
Definition tx2 : JsObject :=
  <["hash" := VStr "h2"]> {[ "created_at" := VStr "2024-01-01T00:00:00Z" ]}.
Definition payment : JsObject :=
  <["amount" := VStr "10.0"]> {[ "asset_type" := VStr "native" ]}.
Definition bump : JsObject := {[ "type" := VStr "bump_sequence" ]}.

Definition tx3 : JsObject :=
  <["hash" := VStr "h3"]> {[ "created_at" := VStr "2023-12-31T00:00:00Z" ]}.

Definition funded : Mock.World :=
  {| Mock.users := ∅; Mock.nextId := 1; Mock.horizonUp := true;
     Mock.ledger := {[ "GA" := [tx1; tx2; tx3] ]};
     Mock.operations := <["h1" := [payment]]> {[ "h3" := [bump] ]};
     Mock.rpcUp := true |}.

(** A stand-in for the MAC, good enough to tell signatures apart. *)
Definition toy_hmac (key msg : string) : string := key +:+ "|" +:+ msg.

(** A stand-in for the character count: the code points of a string
    given in UTF-8, that is, its bytes other than continuation bytes. *)
Fixpoint code_points (s : string) : nat :=
  match s with
  | EmptyString => 0
  | String (Ascii.Ascii _ _ _ _ _ _ b6 b7) s =>
      ((if b7 && negb b6 then 0 else 1) + code_points s)%nat
  end.

(** A stand-in for the e-mail syntax check: there is an [@]. *)
Fixpoint toy_isEmail (s : string) : bool :=
  match s with
  | EmptyString => false
  | String a s => bool_decide (String a EmptyString = "@") || toy_isEmail s
  end.

End Sample.

(** ** Further code of the same files *)

(** The log lines of a trace, in order. *)
Fixpoint logs (t : list Event) : list (Level * string) :=
  match t with
  | [] => []
  | Logged lvl msg :: t => (lvl, msg) :: logs t
  | Called _ _ :: t => logs t
  end.

(** Calls that write to the user store or spend a bcrypt hashing. *)
Definition creates_or_hashes (c : Call) : bool :=
  match c with
  | UserService_create _ | bcrypt_hash _ _ => true
  | _ => false
  end.

(** The guard lets the request through. *)
Definition allows (r : Result bool) : bool :=
  match r with Returned true => true | _ => false end.

Module BlockchainController.

(** [GET wallets/:publicKey/transactions]: the service is called with the
    public key alone, so [limit] takes its default. *)
Definition getWalletTransactions (publicKey : string) : Prog (list JsObject) :=
  StellarService.getRecentTransactions publicKey None.

End BlockchainController.

(** The two passphrases of the SDK's [Networks] that the service names. *)
Inductive Networks : Type := PUBLIC | TESTNET.

Module StellarConfig.
Section WithConfig.

(** [this.configService.get(key)] *)
Variable configService_get : string → JsVal.

Definition getNetworkPassphrase : Networks :=
  let network := configService_get "stellar.network" in
  if strict_eq network (VStr "mainnet") then PUBLIC else TESTNET.

End WithConfig.
End StellarConfig.

(** The test double with the token signer out of order. *)
Definition signer_down : Handler Mock.World := λ w c,
  match c as c0 return Mock.World * Settled (Resp c0) with
  | JwtService_sign _ => (w, Rejected Mock.unreachable)
  | c0 => Mock.handler w c0
  end.

(** The test double with a Horizon that ignores the page size and
    answers with every transaction of the account. *)
Definition unpaged : Handler Mock.World := λ w c,
  match c as c0 return Mock.World * Settled (Resp c0) with
  | Horizon_transactions account _ _ =>
      (w, Fulfilled (default [] (Mock.ledger w !! account)))
  | c0 => Mock.handler w c0
  end.

(** The configuration of the end-to-end test. *)
Definition test_config (key : string) : JsVal :=
  if bool_decide (key = "stellar.webhookSecret") then VStr "test_webhook_secret_key_123456"
  else if bool_decide (key = "stellar.network") then VStr "testnet"
  else VStr "mock_value".

(** * Theorems *)

(** ** Running: one step at a time *)

Lemma run_bind_await {W A} (h : Handler W) (w : W) (c : Call)
    (k : Resp c → Prog A) :
  run h w (x ← await c; k x) =
  match h w c with
  | (w', Fulfilled x) =>
      let o := run h w' (k x) in
      {| final := final o; trace := Called c (Fulfilled x) :: trace o;
         result := result o |}
  | (w', Rejected e) =>
      {| final := w'; trace := [Called c (Rejected e)];
         result := Threw (Uncaught e) |}
  end.
Proof.
  cbn. destruct (h w c) as [w' [x|e]]; reflexivity.
Qed.

Lemma run_await {W} (h : Handler W) (w : W) (c : Call) :
  run h w (await c) =
  match h w c with
  | (w', Fulfilled x) =>
      {| final := w'; trace := [Called c (Fulfilled x)]; result := Returned x |}
  | (w', Rejected e) =>
      {| final := w'; trace := [Called c (Rejected e)];
         result := Threw (Uncaught e) |}
  end.
Proof.
  cbn. destruct (h w c) as [w' [x|e]]; reflexivity.
Qed.

(** Answer the next call of the run in the goal both ways. *)
Ltac answer h w c :=
  let w' := fresh "w" in
  let x := fresh "x" in
  let e := fresh "e" in
  let E := fresh "E" in
  destruct (h w c) as [w' [x|e]] eqn:E; cbn [final trace result].

Lemma generateToken_run {W} (h : Handler W) (w : W) (userId email : JsVal) :
  run h w (AuthService.generateToken userId email) =
  run h w (await (JwtService_sign (<["sub" := userId]> (<["email" := email]> ∅)))).
Proof. reflexivity. Qed.

Lemma get_delete_ne (o : JsObject) (k k' : string) :
  k ≠ k' → get (delete k o) k' = get o k'.
Proof. intros Hne. unfold get. by rewrite lookup_delete_ne. Qed.

(** ** Registration *)

(** How a run of [register] goes, call by call. *)
Lemma register_run {W} (h : Handler W) (w : W) (dto : RegisterDto.t) :
  run h w (AuthService.register dto) =
  match h w (UserService_findByEmail (RegisterDto.email dto)) with
  | (w1, Rejected e) =>
      {| final := w1;
         trace := [Called (UserService_findByEmail (RegisterDto.email dto)) (Rejected e)];
         result := Threw (Uncaught e) |}
  | (w1, Fulfilled (Some u)) =>
      {| final := w1;
         trace := [Called (UserService_findByEmail (RegisterDto.email dto))
                     (Fulfilled (Some u))];
         result := Threw (ConflictException "User already exists") |}
  | (w1, Fulfilled None) =>
      let o := run h w1
        (hashedPassword ← await (bcrypt_hash (RegisterDto.password dto) 10);
         user ← await (UserService_create
                         (<["password" := VStr hashedPassword]> (RegisterDto.props dto)));
         accessToken ← AuthService.generateToken (get user "id") (get user "email");
         Ret {| AuthService.user := user; AuthService.accessToken := accessToken |}) in
      {| final := final o;
         trace := Called (UserService_findByEmail (RegisterDto.email dto))
                    (Fulfilled None) :: trace o;
         result := result o |}
  end.
Proof.
  unfold AuthService.register.
  rewrite (run_bind_await h w (UserService_findByEmail (RegisterDto.email dto))).
  destruct (h w _) as [w1 [[u|]|e]]; reflexivity.
Qed.

(** Answer the next collaborator call of the run in the goal both ways. *)
Ltac step :=
  match goal with
  | |- context [?h ?w ?c] =>
      match type of h with
      | Handler _ =>
          match type of c with
          | Call => destruct (h w c) as [? [?|?]] eqn:?; cbn in *
          end
      end
  end.

(** C5. [register] fails with the duplicate-user conflict exactly when the
    store's lookup by the e-mail of the request, passed on as it came,
    finds a record.  In that case the lookup is the only call made: no
    record is created, no token is signed, and the world is as the lookup
    left it. *)
Theorem register_duplicate_iff_email_taken
    {W} (h : Handler W) (w : W) (dto : RegisterDto.t) :
  let lookup := h w (UserService_findByEmail (RegisterDto.email dto)) in
  let o := run h w (AuthService.register dto) in
  (is_ConflictException (result o) = true ↔ ∃ u, lookup.2 = Fulfilled (Some u)) ∧
  ((∃ u, lookup.2 = Fulfilled (Some u)) →
     result o = Threw (ConflictException "User already exists") ∧
     calls (trace o) = [UserService_findByEmail (RegisterDto.email dto)] ∧
     final o = lookup.1).
Proof.
  cbn zeta. rewrite register_run.
  destruct (h w (UserService_findByEmail _)) as [w1 [[u|]|e]] eqn:E; cbn.
  - split; [split; eauto|]. intros _. done.
  - split.
    + split; [|intros [u Hu]; discriminate].
      repeat step; done.
    + intros [u Hu]; discriminate.
  - split.
    + split; [done|intros [u Hu]; discriminate].
    + intros [u Hu]; discriminate.
Qed.

(** Registering the sample user twice: the second attempt is a conflict
    and leaves the store as it was. *)
Lemma register_duplicate_iff_email_taken_witness :
  result (run Mock.handler Sample.registered (AuthService.register Sample.registration))
  = Threw (ConflictException "User already exists") ∧
  calls (trace (run Mock.handler Sample.registered
                  (AuthService.register Sample.registration)))
  = [UserService_findByEmail "a@x.com"] ∧
  final (run Mock.handler Sample.registered (AuthService.register Sample.registration))
  = Sample.registered.
Proof.
  apply (register_duplicate_iff_email_taken Mock.handler Sample.registered
           Sample.registration).
  vm_compute. eexists. reflexivity.
Defined.

(** ** Login *)

(** C3. [login] throws one and the same exception, [UnauthorizedException]
    with the message "Invalid credentials", when the lookup finds no
    record, when the record has no usable password hash, and when bcrypt
    finds the password not to match; when it matches, the token signed for
    the record's id and e-mail is returned. *)
Theorem login_failures_indistinguishable
    {W} (h : Handler W) (w w1 : W) (dto : LoginDto.t) :
  let find := UserService_findByEmail (LoginDto.email dto) in
  let o := run h w (AuthService.login dto) in
  (h w find = (w1, Fulfilled None) → result o = Threw InvalidCredentials) ∧
  (∀ u, h w find = (w1, Fulfilled (Some u)) →
        truthy (get u "password") = false →
        result o = Threw InvalidCredentials) ∧
  (∀ u w2, h w find = (w1, Fulfilled (Some u)) →
        truthy (get u "password") = true →
        h w1 (bcrypt_compare (LoginDto.password dto) (get u "password"))
          = (w2, Fulfilled false) →
        result o = Threw InvalidCredentials) ∧
  (∀ u w2 w3 token, h w find = (w1, Fulfilled (Some u)) →
        truthy (get u "password") = true →
        h w1 (bcrypt_compare (LoginDto.password dto) (get u "password"))
          = (w2, Fulfilled true) →
        h w2 (JwtService_sign
                (<["sub" := get u "id"]> (<["email" := get u "email"]> ∅)))
          = (w3, Fulfilled token) →
        result o = Returned {| AuthService.login_accessToken := token |}).
Proof.
  cbn zeta. unfold AuthService.login, AuthService.validateUser.
  repeat split.
  - intros E. cbn. rewrite E. reflexivity.
  - intros u E Hpw. cbn. rewrite E. cbn. rewrite Hpw. reflexivity.
  - intros u w2 E Hpw Ecmp. cbn. rewrite E. cbn. rewrite Hpw. cbn.
    rewrite Ecmp. reflexivity.
  - intros u w2 w3 token E Hpw Ecmp Esign. cbn. rewrite E. cbn.
    rewrite Hpw. cbn. rewrite Ecmp. cbn.
    rewrite !get_delete_ne by done. rewrite Esign. reflexivity.
Qed.

(** The four cases on the in-memory store: an unknown e-mail, a record
    without a hash, a wrong password, and the right password. *)
Lemma login_failures_indistinguishable_witness :
  let hashless : Mock.World :=
    {| Mock.users := {[ "a@x.com" := {[ "id" := VStr "u1" ]} ]}; Mock.nextId := 2;
       Mock.horizonUp := true; Mock.ledger := ∅; Mock.operations := ∅;
       Mock.rpcUp := true |} in
  result (run Mock.handler Mock.empty (AuthService.login Sample.good_login))
    = Threw InvalidCredentials ∧
  result (run Mock.handler hashless (AuthService.login Sample.good_login))
    = Threw InvalidCredentials ∧
  result (run Mock.handler Sample.registered (AuthService.login Sample.bad_login))
    = Threw InvalidCredentials ∧
  result (run Mock.handler Sample.registered (AuthService.login Sample.good_login))
    = Returned {| AuthService.login_accessToken := "jwt/u1/a@x.com" |}.
Proof.
  cbn zeta. split; [|split; [|split]].
  - apply (proj1 (login_failures_indistinguishable Mock.handler Mock.empty
                    Mock.empty Sample.good_login)).
    reflexivity.
  - eapply (proj1 (proj2 (login_failures_indistinguishable Mock.handler _ _
                            Sample.good_login))).
    + vm_compute. reflexivity.
    + vm_compute. reflexivity.
  - eapply (proj1 (proj2 (proj2 (login_failures_indistinguishable Mock.handler
                                   Sample.registered Sample.registered
                                   Sample.bad_login)))).
    + vm_compute. reflexivity.
    + vm_compute. reflexivity.
    + vm_compute. reflexivity.
  - eapply (proj2 (proj2 (proj2 (login_failures_indistinguishable Mock.handler
                                   Sample.registered Sample.registered
                                   Sample.good_login)))).
    + vm_compute. reflexivity.
    + vm_compute. reflexivity.
    + vm_compute. reflexivity.
    + vm_compute. reflexivity.
Defined.

(** ** What registration hands back *)

(** The [user] of a successful registration is, property for property,
    the record the store's [create] resolved to. *)
Lemma register_returns_created_record
    {W} (h : Handler W) (w : W) (dto : RegisterDto.t) (r : AuthService.RegisterResult) :
  result (run h w (AuthService.register dto)) = Returned r →
  ∃ w1 w2 hashedPassword,
    h w1 (UserService_create
            (<["password" := VStr hashedPassword]> (RegisterDto.props dto)))
    = (w2, Fulfilled (AuthService.user r)).
Proof.
  rewrite register_run.
  destruct (h w (UserService_findByEmail _)) as [w1 [[u|]|e]] eqn:E; cbn;
    try discriminate.
  repeat step; try discriminate.
  intros [= <-]. cbn. eauto.
Qed.

(** The sibling path: what [validateUser] resolves to never has a
    [password] property. *)
Lemma validateUser_strips_password
    {W} (h : Handler W) (w : W) (email pass : string) (u : JsObject) :
  result (run h w (AuthService.validateUser email pass)) = Returned (Some u) →
  u !! "password" = None.
Proof.
  unfold AuthService.validateUser. cbn.
  destruct (h w (UserService_findByEmail email)) as [w1 [[rec|]|e]]; cbn;
    try discriminate.
  destruct (truthy (get rec "password")); cbn; try discriminate.
  destruct (h w1 (bcrypt_compare _ _)) as [w2 [[|]|e]]; cbn; try discriminate.
  intros [= <-]. apply lookup_delete_eq.
Qed.

(** C1. Registering [a@x.com] with [password123] on an empty store
    succeeds, and the [user] handed to the caller carries the stored
    bcrypt hash under [password]; [validateUser], for the same record,
    hands it back without that property. *)
Theorem register_returns_password_hash :
  (∃ r, result (run Mock.handler Mock.empty (AuthService.register Sample.registration))
        = Returned r ∧
        AuthService.user r !! "password" = Some (VStr "$2b$10$password123")) ∧
  (∃ u, result (run Mock.handler Sample.registered
                  (AuthService.validateUser "a@x.com" "password123"))
        = Returned (Some u) ∧
        u !! "password" = None).
Proof.
  split.
  - eexists. split; [vm_compute; reflexivity|]. vm_compute. reflexivity.
  - eexists. split; [vm_compute; reflexivity|]. vm_compute. reflexivity.
Qed.

(** ** The bcrypt cost factor *)

(** C8, as stated, fails: were the cost factor provisioned as 12,
    registration would still hash with another one. *)
Lemma register_cost_not_configurable :
  ¬ hashes_with_cost 12 (AuthService.register Sample.registration).
Proof.
  intros Hcost.
  specialize (Hcost Mock.World Mock.handler Mock.empty "password123" 10).
  assert (10 = 12) as Habs; [|discriminate Habs].
  apply Hcost. vm_compute. apply list_elem_of_further, list_elem_of_here.
Qed.

(** C8, amended. Every [bcrypt.hash] call made by [register] uses the
    cost factor 10 written in the code, whatever the surroundings; a
    registration that succeeds has hashed the request's password that
    way. *)
Theorem register_hashes_with_cost_10 (dto : RegisterDto.t) :
  hashes_with_cost 10 (AuthService.register dto) ∧
  (∀ W (h : Handler W) (w : W) r,
     result (run h w (AuthService.register dto)) = Returned r →
     bcrypt_hash (RegisterDto.password dto) 10
       ∈ calls (trace (run h w (AuthService.register dto)))).
Proof.
  split.
  - intros W h w data rounds. rewrite register_run.
    destruct (h w (UserService_findByEmail _)) as [w1 [[u|]|e]] eqn:E; cbn;
      repeat step;
      intros Hin;
      repeat (apply elem_of_cons in Hin as [Hin|Hin]);
      try discriminate; try (by apply elem_of_nil in Hin);
      by injection Hin.
  - intros W h w r. rewrite register_run.
    destruct (h w (UserService_findByEmail _)) as [w1 [[u|]|e]] eqn:E; cbn;
      try discriminate.
    repeat step; try discriminate.
    intros _. apply list_elem_of_further, list_elem_of_here.
Qed.

(** The sample registration hashes its password with cost 10. *)
Lemma register_hashes_with_cost_10_witness :
  bcrypt_hash "password123" 10
    ∈ calls (trace (run Mock.handler Mock.empty
                      (AuthService.register Sample.registration))).
Proof.
  eapply (proj2 (register_hashes_with_cost_10 Sample.registration)
            Mock.World Mock.handler Mock.empty).
  vm_compute. reflexivity.
Defined.

(** ** Failures of collaborators *)

(** Membership in a short list of failures, case by case. *)
Ltac failure_cases H :=
  repeat (apply elem_of_cons in H as [H|H]);
  try (by apply elem_of_nil in H);
  try (injection H as -> ->).

Lemma register_propagates (dto : RegisterDto.t) :
  propagates_failures (AuthService.register dto).
Proof.
  intros W h w c e. rewrite register_run.
  destruct (h w (UserService_findByEmail _)) as [w1 [[u|]|e1]] eqn:E; cbn;
    repeat step; intros Hin; failure_cases Hin; reflexivity.
Qed.

Lemma validateUser_propagates (email pass : string) :
  propagates_failures (AuthService.validateUser email pass).
Proof.
  intros W h w c e. unfold AuthService.validateUser. cbn.
  destruct (h w (UserService_findByEmail email)) as [w1 [[u|]|e1]] eqn:E; cbn.
  - destruct (truthy (get u "password")); cbn.
    + destruct (h w1 (bcrypt_compare _ _)) as [w2 [[|]|e2]]; cbn;
        intros Hin; failure_cases Hin; reflexivity.
    + intros Hin; failure_cases Hin.
  - intros Hin; failure_cases Hin.
  - intros Hin; failure_cases Hin; reflexivity.
Qed.

Lemma login_propagates (dto : LoginDto.t) :
  propagates_failures (AuthService.login dto).
Proof.
  intros W h w c e. unfold AuthService.login, AuthService.validateUser. cbn.
  destruct (h w (UserService_findByEmail _)) as [w1 [[u|]|e1]] eqn:E; cbn.
  - destruct (truthy (get u "password")); cbn.
    + destruct (h w1 (bcrypt_compare _ _)) as [w2 [[|]|e2]]; cbn.
      * destruct (h w2 (JwtService_sign _)) as [w3 [t|e3]]; cbn;
          intros Hin; failure_cases Hin; reflexivity.
      * intros Hin; failure_cases Hin.
      * intros Hin; failure_cases Hin; reflexivity.
    + intros Hin; failure_cases Hin.
  - intros Hin; failure_cases Hin.
  - intros Hin; failure_cases Hin; reflexivity.
Qed.

Lemma getHealth_propagates :
  propagates_failures StellarService.getHealth.
Proof.
  intros W h w c e. unfold StellarService.getHealth. cbn.
  destruct (h w Rpc_getHealth) as [w1 [x|e1]]; cbn;
    intros Hin; failure_cases Hin; reflexivity.
Qed.

(** How the callback of [getRecentTransactions] runs on one record. *)
Lemma toTransactionDto_run {W} (h : Handler W) (w : W) (tx : JsObject) :
  run h w (StellarService.toTransactionDto tx) =
  match h w (Tx_operations tx) with
  | (w1, Fulfilled []) =>
      {| final := w1; trace := [Called (Tx_operations tx) (Fulfilled [])];
         result := Returned (StellarService.TransactionDto tx (VStr "0") (VStr "XLM")) |}
  | (w1, Fulfilled (op :: ops)) =>
      {| final := w1; trace := [Called (Tx_operations tx) (Fulfilled (op :: ops))];
         result := Returned
           (StellarService.TransactionDto tx
              (if is_string (get op "amount") then get op "amount" else VStr "0")
              (StellarService.tokenOf op (VStr "XLM"))) |}
  | (w1, Rejected e) =>
      {| final := w1;
         trace := [Called (Tx_operations tx) (Rejected e);
                   Logged WarnLevel
                     ("Could not fetch operations for tx " +:+ toString (get tx "hash")
                      +:+ ": " +:+ message e)];
         result := Returned (StellarService.TransactionDto tx (VStr "0") (VStr "XLM")) |}
  end.
Proof.
  unfold StellarService.toTransactionDto. cbn.
  destruct (h w (Tx_operations tx)) as [w1 [[|op ops]|e]]; reflexivity.
Qed.

(** ** Sequencing and catching *)

Lemma run_bind {W A B} (h : Handler W) (w : W) (p : Prog A) (f : A → Prog B) :
  run h w (p ≫= f) =
  let o := run h w p in
  match result o with
  | Returned a =>
      let o' := run h (final o) (f a) in
      {| final := final o'; trace := trace o ++ trace o'; result := result o' |}
  | Threw e => {| final := final o; trace := trace o; result := Threw e |}
  end.
Proof.
  change (p ≫= f) with (bind p f).
  revert w. induction p as [a|e|c k IH|lvl msg k IH]; intros w; cbn.
  - by destruct (run h w (f a)).
  - reflexivity.
  - destruct (h w c) as [w' r]. rewrite IH. cbn.
    by destruct (result (run h w' (k r))).
  - rewrite IH. cbn. by destruct (result (run h w k)).
Qed.

Lemma run_try_catch {W A} (h : Handler W) (w : W) (p : Prog A)
    (handle : Exception → Prog A) :
  run h w (try_catch p handle) =
  let o := run h w p in
  match result o with
  | Returned a => o
  | Threw e =>
      let o' := run h (final o) (handle e) in
      {| final := final o'; trace := trace o ++ trace o'; result := result o' |}
  end.
Proof.
  revert w. induction p as [a|e|c k IH|lvl msg k IH]; intros w; cbn.
  - reflexivity.
  - by destruct (run h w (handle e)).
  - destruct (h w c) as [w' r]. rewrite IH. cbn.
    destruct (run h w' (k r)) as [wf t [a|e]]; reflexivity.
  - rewrite IH. cbn. destruct (run h w k) as [wf t [a|e]]; reflexivity.
Qed.

(** ** Recent transactions *)

(** The callback never throws: it yields an entry for its record. *)
Lemma toTransactionDto_returns {W} (h : Handler W) (w : W) (tx : JsObject) :
  ∃ amount token,
    result (run h w (StellarService.toTransactionDto tx))
    = Returned (StellarService.TransactionDto tx amount token).
Proof.
  rewrite toTransactionDto_run.
  destruct (h w (Tx_operations tx)) as [w1 [[|op ops]|e]]; cbn; eauto.
Qed.

Lemma TransactionDto_dom (tx : JsObject) (amount token : JsVal) :
  dom (StellarService.TransactionDto tx amount token) = TransactionDto_keys.
Proof.
  unfold StellarService.TransactionDto, TransactionDto_keys.
  rewrite !dom_insert_L, dom_empty_L. set_solver.
Qed.

(** Reading the properties of the object literal. *)
Lemma get_TransactionDto (tx : JsObject) (amount token : JsVal) :
  get (StellarService.TransactionDto tx amount token) "date" = get tx "created_at" ∧
  get (StellarService.TransactionDto tx amount token) "amount" = amount ∧
  get (StellarService.TransactionDto tx amount token) "token" = token ∧
  get (StellarService.TransactionDto tx amount token) "hash" = get tx "hash".
Proof.
  unfold get at 1 3 4 5, StellarService.TransactionDto.
  repeat split; by simplify_map_eq.
Qed.

(** Mapping the callback over the records yields one entry per record,
    in order, each the callback's result for its record in some world. *)
Lemma mapM_toTransactionDto_run {W} (h : Handler W) (w : W) (txs : list JsObject) :
  ∃ entries,
    result (run h w (mapM StellarService.toTransactionDto txs)) = Returned entries ∧
    Forall2 (λ tx entry, ∃ w1,
               result (run h w1 (StellarService.toTransactionDto tx)) = Returned entry)
            txs entries.
Proof.
  revert w. induction txs as [|tx txs IH]; intros w.
  - exists []. split; [reflexivity|constructor].
  - cbn [mapM]. rewrite run_bind. cbv zeta.
    destruct (toTransactionDto_returns h w tx) as (amount & token & Htx).
    rewrite Htx. cbv beta iota.
    rewrite run_bind. cbv zeta.
    destruct (IH (final (run h w (StellarService.toTransactionDto tx))))
      as (entries & Hrest & Hall).
    rewrite Hrest. cbv beta iota. cbn [result].
    eexists. split; [reflexivity|]. constructor; [eauto|exact Hall].
Qed.

(** What a run of [getRecentTransactions] comes to, by the answer to
    the transactions query. *)
Lemma getRecentTransactions_outcome
    {W} (h : Handler W) (w : W) (publicKey : string) (limit : option Z) :
  let query := Horizon_transactions publicKey (default 10 limit) "desc" in
  let o := run h w (StellarService.getRecentTransactions publicKey limit) in
  match h w query with
  | (w1, Fulfilled txs) =>
      ∃ entries,
        result o = Returned entries ∧
        Forall2 (λ tx entry, ∃ w2,
                   result (run h w2 (StellarService.toTransactionDto tx))
                   = Returned entry)
                txs entries
  | (w1, Rejected e) =>
      result o = Returned [] ∧
      final o = w1 ∧
      trace o = [Called query (Rejected e);
                 Logged ErrorLevel
                   ("Failed to fetch transactions for " +:+ publicKey +:+ ": "
                    +:+ message e)]
  end.
Proof.
  cbv zeta. unfold StellarService.getRecentTransactions. cbv zeta.
  rewrite run_try_catch. cbv zeta.
  rewrite (run_bind_await h w (Horizon_transactions publicKey (default 10 limit) "desc")).
  destruct (h w (Horizon_transactions _ _ _)) as [w1 [txs|e]].
  - cbv zeta. cbn [result final trace].
    rewrite run_bind. cbv zeta.
    destruct (mapM_toTransactionDto_run h w1 txs) as (entries & Hres & Hall).
    rewrite Hres. cbv beta iota. cbn [run result].
    exists entries. split; [reflexivity|exact Hall].
  - cbn. done.
Qed.

(** C10, as stated, fails: the code hands [limit] to Horizon and never
    truncates what comes back.  With limit -1 the (empty) list is not
    "at most limit" long, and with a Horizon that ignores the page size a
    limit of 1 gives three entries. *)
Lemma getRecentTransactions_limit_not_enforced :
  (∃ entries,
     result (run Mock.handler Sample.funded
               (StellarService.getRecentTransactions "GA" (Some (-1))))
     = Returned entries ∧
     ¬ (Z.of_nat (length entries) ≤ -1)%Z) ∧
  (∃ entries,
     result (run unpaged Sample.funded
               (StellarService.getRecentTransactions "GA" (Some 1)))
     = Returned entries ∧
     ¬ (Z.of_nat (length entries) ≤ 1)%Z).
Proof.
  split; eexists; (split; [vm_compute; reflexivity|cbn; lia]).
Qed.

(** C10, amended. [getRecentTransactions] always returns a list: one
    entry per record Horizon answered with, in order, and none when the
    query is rejected.  So the list has at most [limit] entries, 10 when
    no limit is given, provided Horizon keeps to the page size it is
    asked for and the limit is not negative.  Every entry has exactly the
    properties [date], [amount], [token] and [hash].  The entry of a
    record reads amount "0" and token "XLM", next to the record's date
    and hash, when the record's operations cannot be fetched, when there
    are none, and when the first has no amount or asset property. *)
Theorem getRecentTransactions_entries
    {W} (h : Handler W) (w : W) (publicKey : string) (limit : option Z) :
  let query := Horizon_transactions publicKey (default 10 limit) "desc" in
  (∃ entries,
     result (run h w (StellarService.getRecentTransactions publicKey limit))
     = Returned entries ∧
     (∀ w1 txs,
        h w query = (w1, Fulfilled txs) →
        length entries = length txs ∧
        Forall2 (λ tx entry, ∃ w2,
                   result (run h w2 (StellarService.toTransactionDto tx))
                   = Returned entry)
                txs entries) ∧
     (∀ w1 e, h w query = (w1, Rejected e) → entries = []) ∧
     (honours_limit h → (0 ≤ default 10 limit)%Z →
      (Z.of_nat (length entries) ≤ default 10 limit)%Z) ∧
     Forall (λ entry : JsObject, dom entry = TransactionDto_keys) entries) ∧
  (∀ tx w1 w2,
     ((∃ e, h w1 (Tx_operations tx) = (w2, Rejected e)) ∨
      h w1 (Tx_operations tx) = (w2, Fulfilled []) ∨
      (∃ op ops, h w1 (Tx_operations tx) = (w2, Fulfilled (op :: ops)) ∧
                 no_amount_or_asset op)) →
     ∃ entry,
       result (run h w1 (StellarService.toTransactionDto tx)) = Returned entry ∧
       dom entry = TransactionDto_keys ∧
       get entry "amount" = VStr "0" ∧
       get entry "token" = VStr "XLM" ∧
       get entry "date" = get tx "created_at" ∧
       get entry "hash" = get tx "hash").
Proof.
  cbv zeta. split.
  - pose proof (getRecentTransactions_outcome h w publicKey limit) as Hout.
    cbv zeta in Hout.
    destruct (h w (Horizon_transactions _ _ _)) as [w1 [txs|e]] eqn:Equery.
    + destruct Hout as (entries & Hres & Hall).
      exists entries. split; [exact Hres|]. split; [|split; [|split]].
      * intros w1' txs' [= _ <-]. split; [|exact Hall].
        symmetry. exact (Forall2_length _ _ _ Hall).
      * discriminate.
      * intros Hlimit _. rewrite <- (Forall2_length _ _ _ Hall).
        exact (Hlimit _ _ _ _ _ _ Equery).
      * apply Forall_lookup. intros i entry Hi.
        destruct (Forall2_lookup_r _ _ _ _ _ Hall Hi) as (tx & _ & w2 & Htx).
        destruct (toTransactionDto_returns h w2 tx) as (amount & token & Hret).
        rewrite Hret in Htx. injection Htx as <-. apply TransactionDto_dom.
    + destruct Hout as (Hres & _). exists []. split; [exact Hres|].
      split; [discriminate|]. split; [done|]. split; [|constructor].
      intros _ Hcount. exact Hcount.
  - intros tx w1 w2 Hcase.
    exists (StellarService.TransactionDto tx (VStr "0") (VStr "XLM")).
    destruct (get_TransactionDto tx (VStr "0") (VStr "XLM")) as (Hd & Ha & Ht & Hh).
    split; [|split; [apply TransactionDto_dom|done]].
    rewrite toTransactionDto_run.
    destruct Hcase as [[e He]|[Hnil|(op & ops & Hop & Hno)]].
    + rewrite He. reflexivity.
    + rewrite Hnil. reflexivity.
    + rewrite Hop. cbn [result].
      destruct Hno as (Ham & Hty & Has & Hco & Hbu & Hse).
      unfold StellarService.tokenOf, get.
      rewrite Ham, Hty, Has, Hco, Hbu, Hse. reflexivity.
Qed.

Lemma Mock_handler_honours_limit : honours_limit Mock.handler.
Proof.
  intros w account limit order w' records. cbn.
  destruct (Mock.horizonUp w); [|discriminate].
  case_bool_decide as Hrange; [|discriminate].
  destruct (Mock.ledger w !! account) as [txs|]; [|discriminate].
  intros [= _ <-]. rewrite length_take. lia.
Qed.

(** On the sample ledger: a page of one entry; the defaults for the
    transaction whose operations cannot be fetched and for the one whose
    operation has no amount or asset. *)
Lemma getRecentTransactions_entries_witness :
  (∃ entries,
     result (run Mock.handler Sample.funded
               (StellarService.getRecentTransactions "GA" (Some 1)))
     = Returned entries ∧
     (Z.of_nat (length entries) ≤ 1)%Z) ∧
  (∃ entry,
     result (run Mock.handler Sample.funded (StellarService.toTransactionDto Sample.tx2))
     = Returned entry ∧
     get entry "amount" = VStr "0" ∧ get entry "token" = VStr "XLM") ∧
  (∃ entry,
     result (run Mock.handler Sample.funded (StellarService.toTransactionDto Sample.tx3))
     = Returned entry ∧
     get entry "amount" = VStr "0" ∧ get entry "token" = VStr "XLM").
Proof.
  split; [|split].
  - destruct (proj1 (getRecentTransactions_entries Mock.handler Sample.funded
                       "GA" (Some 1))) as (entries & Hres & _ & _ & Hlen & _).
    exists entries. split; [exact Hres|].
    apply Hlen; [exact Mock_handler_honours_limit|cbn; lia].
  - destruct (proj2 (getRecentTransactions_entries Mock.handler Sample.funded
                       "GA" None) Sample.tx2 Sample.funded Sample.funded)
      as (entry & Hres & _ & Ha & Ht & _).
    + left. exists Mock.not_found. vm_compute. reflexivity.
    + exists entry. auto.
  - destruct (proj2 (getRecentTransactions_entries Mock.handler Sample.funded
                       "GA" None) Sample.tx3 Sample.funded Sample.funded)
      as (entry & Hres & _ & Ha & Ht & _).
    + right. right. exists Sample.bump, []. split.
      * vm_compute. reflexivity.
      * vm_compute. repeat split.
    + exists entry. auto.
Defined.

(** C7, as stated, fails: with Horizon unreachable the transaction listing
    returns normally. *)
Lemma getRecentTransactions_swallows_failure :
  ¬ propagates_failures (StellarService.getRecentTransactions "GA" None).
Proof.
  intros Hprop.
  specialize (Hprop Mock.World Mock.handler Mock.offline
                (Horizon_transactions "GA" 10 "desc") Mock.unreachable).
  assert (result (run Mock.handler Mock.offline
                    (StellarService.getRecentTransactions "GA" None))
          = Threw (Uncaught Mock.unreachable)) as Habs.
  { apply Hprop. vm_compute. apply list_elem_of_here. }
  vm_compute in Habs. discriminate Habs.
Qed.

(** C7, amended. In [register], [login], [validateUser] and [getHealth] a
    rejected collaborator call is thrown to the caller as it is; nothing
    is swallowed.  [getRecentTransactions] is written otherwise: when the
    transactions query is rejected it logs one line at error level and
    returns the empty list, and when the operations query of a record is
    rejected it logs one line at warning level and gives that entry
    amount "0" and token "XLM". *)
Theorem failures_propagate_except_in_listing :
  (∀ dto, propagates_failures (AuthService.register dto)) ∧
  (∀ dto, propagates_failures (AuthService.login dto)) ∧
  (∀ email pass, propagates_failures (AuthService.validateUser email pass)) ∧
  propagates_failures StellarService.getHealth ∧
  (∀ W (h : Handler W) (w w1 : W) publicKey limit e,
     let query := Horizon_transactions publicKey (default 10 limit) "desc" in
     let o := run h w (StellarService.getRecentTransactions publicKey limit) in
     h w query = (w1, Rejected e) →
     result o = Returned [] ∧
     ∃ msg, trace o = [Called query (Rejected e); Logged ErrorLevel msg]) ∧
  (∀ W (h : Handler W) (w w1 : W) tx e,
     let o := run h w (StellarService.toTransactionDto tx) in
     h w (Tx_operations tx) = (w1, Rejected e) →
     (∃ entry, result o = Returned entry ∧
               get entry "amount" = VStr "0" ∧ get entry "token" = VStr "XLM") ∧
     ∃ msg, trace o = [Called (Tx_operations tx) (Rejected e); Logged WarnLevel msg]).
Proof.
  split; [exact register_propagates|].
  split; [exact login_propagates|].
  split; [exact validateUser_propagates|].
  split; [exact getHealth_propagates|].
  split.
  - intros W h w w1 publicKey limit e query o Hq. subst query o.
    pose proof (getRecentTransactions_outcome h w publicKey limit) as Hout.
    cbv zeta in Hout. rewrite Hq in Hout. destruct Hout as (Hres & _ & Htrace).
    split; [exact Hres|]. eexists. exact Htrace.
  - intros W h w w1 tx e o Hq. subst o.
    rewrite toTransactionDto_run, Hq. cbn [result trace]. split.
    + eexists. split; [reflexivity|].
      destruct (get_TransactionDto tx (VStr "0") (VStr "XLM")) as (_ & Ha & Ht & _).
      by rewrite Ha, Ht.
    + eexists. reflexivity.
Qed.

(** With both remote services unreachable: the health check throws the
    connection error; the listing returns the empty list and leaves one
    error line; an entry made while Horizon is down has the defaults and
    leaves one warning. *)
Lemma failures_propagate_except_in_listing_witness :
  result (run Mock.handler Mock.offline StellarService.getHealth)
  = Threw (Uncaught Mock.unreachable) ∧
  (result (run Mock.handler Mock.offline
             (StellarService.getRecentTransactions "GA" None))
   = Returned [] ∧
   ∃ msg, trace (run Mock.handler Mock.offline
                   (StellarService.getRecentTransactions "GA" None))
          = [Called (Horizon_transactions "GA" 10 "desc") (Rejected Mock.unreachable);
             Logged ErrorLevel msg]) ∧
  ((∃ entry, result (run Mock.handler Mock.offline
                       (StellarService.toTransactionDto Sample.tx1))
             = Returned entry ∧
             get entry "amount" = VStr "0" ∧ get entry "token" = VStr "XLM") ∧
   ∃ msg, trace (run Mock.handler Mock.offline
                   (StellarService.toTransactionDto Sample.tx1))
          = [Called (Tx_operations Sample.tx1) (Rejected Mock.unreachable);
             Logged WarnLevel msg]).
Proof.
  split; [|split].
  - eapply (proj1 (proj2 (proj2 (proj2 failures_propagate_except_in_listing)))
              Mock.World Mock.handler Mock.offline Rpc_getHealth).
    vm_compute. apply list_elem_of_here.
  - apply (proj1 (proj2 (proj2 (proj2 (proj2 failures_propagate_except_in_listing))))
             Mock.World Mock.handler Mock.offline Mock.offline "GA" None
             Mock.unreachable).
    vm_compute. reflexivity.
  - apply (proj2 (proj2 (proj2 (proj2 (proj2 failures_propagate_except_in_listing))))
             Mock.World Mock.handler Mock.offline Mock.offline Sample.tx1
             Mock.unreachable).
    vm_compute. reflexivity.
Defined.

(** ** Role guard *)

Lemma existsb_role (r : Role) (rs : list Role) :
  existsb (λ r', bool_decide (r = r')) rs = true ↔ r ∈ rs.
Proof.
  induction rs as [|r' rs IH]; cbn.
  - split; [discriminate|]. by intros ?%elem_of_nil.
  - rewrite elem_of_cons, orb_true_iff, bool_decide_eq_true, IH. tauto.
Qed.

(** C2. The guard allows when the route's required roles are absent or
    empty, whether or not a user is attached.  With required roles and no
    user it throws [ForbiddenException]; with a user it allows exactly
    when the user's role is among the required ones and throws
    [ForbiddenException] otherwise.  So [ADMIN] passes and [USER] is
    refused on an [ADMIN]-only route, and both pass on a route for
    [USER] and [ADMIN]. *)
Theorem canActivate_decision (roleValue : Role → string) (context : ExecutionContext) :
  (getAllAndOverride context = None ∨ getAllAndOverride context = Some [] →
   canActivate roleValue context = Returned true) ∧
  (∀ requiredRoles,
     getAllAndOverride context = Some requiredRoles → requiredRoles ≠ [] →
     match request_user context with
     | None =>
         ∃ msg, canActivate roleValue context = Threw (ForbiddenException msg)
     | Some user =>
         (canActivate roleValue context = Returned true ↔ role user ∈ requiredRoles) ∧
         (role user ∉ requiredRoles →
          ∃ msg, canActivate roleValue context = Threw (ForbiddenException msg))
     end) ∧
  canActivate roleValue {| getAllAndOverride := Some [ADMIN];
                           request_user := Some {| role := ADMIN |} |}
    = Returned true ∧
  (∃ msg, canActivate roleValue {| getAllAndOverride := Some [ADMIN];
                                   request_user := Some {| role := USER |} |}
          = Threw (ForbiddenException msg)) ∧
  (∀ r, canActivate roleValue {| getAllAndOverride := Some [USER; ADMIN];
                                 request_user := Some {| role := r |} |}
        = Returned true).
Proof.
  split; [|split; [|split; [|split]]].
  - unfold canActivate. intros [-> | ->]; reflexivity.
  - intros requiredRoles Hroles Hne. unfold canActivate. rewrite Hroles.
    destruct requiredRoles as [|r0 rs]; [done|].
    destruct (request_user context) as [user|]; [|eauto].
    destruct (existsb _ (r0 :: rs)) eqn:Hex; cbn [negb].
    + apply existsb_role in Hex. split; [tauto|]. intros Hnot. done.
    + assert (role user ∉ r0 :: rs) as Hnot.
      { intros Hin%existsb_role. congruence. }
      split; [split; [discriminate|done]|]. eauto.
  - reflexivity.
  - cbn. eauto.
  - intros []; reflexivity.
Qed.

(** The role matrix of the guard's unit tests, with the enum members
    valued by their names. *)
Lemma canActivate_decision_witness :
  let roleValue := λ r, match r with USER => "USER" | ADMIN => "ADMIN" end in
  canActivate roleValue {| getAllAndOverride := None;
                           request_user := Some {| role := USER |} |}
    = Returned true ∧
  canActivate roleValue {| getAllAndOverride := Some [];
                           request_user := None |}
    = Returned true ∧
  (∃ msg, canActivate roleValue {| getAllAndOverride := Some [ADMIN];
                                   request_user := None |}
          = Threw (ForbiddenException msg)) ∧
  (canActivate roleValue {| getAllAndOverride := Some [USER];
                            request_user := Some {| role := USER |} |}
     = Returned true ↔ USER ∈ [USER]).
Proof.
  intros roleValue. split; [|split; [|split]].
  - apply (proj1 (canActivate_decision roleValue
                    {| getAllAndOverride := None;
                       request_user := Some {| role := USER |} |})).
    left. reflexivity.
  - apply (proj1 (canActivate_decision roleValue
                    {| getAllAndOverride := Some []; request_user := None |})).
    right. reflexivity.
  - apply (proj1 (proj2 (canActivate_decision roleValue
                           {| getAllAndOverride := Some [ADMIN];
                              request_user := None |})) [ADMIN]).
    + reflexivity.
    + discriminate.
  - apply (proj1 (proj2 (canActivate_decision roleValue
                           {| getAllAndOverride := Some [USER];
                              request_user := Some {| role := USER |} |})) [USER]).
    + reflexivity.
    + discriminate.
Defined.

(** ** Webhook signature *)

(** C4. A webhook request without the signature header is answered 401
    with "missing signature"; one whose signature differs from the hex
    HMAC-SHA256 of the raw body under the webhook secret is answered 401
    with "invalid signature", never 200; one whose signature matches is
    answered 200 with [{ status: 'success' }]. *)
Theorem postWebhook_contract (hmac_sha256_hex : string → string → string)
    (secret rawBody : string) (signature : option string) :
  let response := postWebhook hmac_sha256_hex secret rawBody signature in
  (signature = None →
   status response = 401 ∧ get (body response) "message" = VStr "missing signature") ∧
  (∀ s, signature = Some s → s ≠ hmac_sha256_hex secret rawBody →
   status response = 401 ∧ status response ≠ 200 ∧
   get (body response) "message" = VStr "invalid signature") ∧
  (∀ s, signature = Some s → s = hmac_sha256_hex secret rawBody →
   response = {| status := 200; body := {[ "status" := VStr "success" ]} |}).
Proof.
  cbv zeta. unfold postWebhook, verifySignature. repeat split.
  - by subst.
  - by subst.
  - subst. by rewrite bool_decide_eq_false_2.
  - subst. by rewrite bool_decide_eq_false_2.
  - subst. by rewrite bool_decide_eq_false_2.
  - intros s -> ->. by rewrite bool_decide_eq_true_2.
Qed.

(** The three requests of the end-to-end test, with a stand-in MAC: the
    matching signature, the signature [wrong], and no signature. *)
Lemma postWebhook_contract_witness :
  let secret := "test_webhook_secret_key_123456" in
  let raw := "{type:payment}" in
  postWebhook Sample.toy_hmac secret raw (Some (Sample.toy_hmac secret raw))
    = {| status := 200; body := {[ "status" := VStr "success" ]} |} ∧
  status (postWebhook Sample.toy_hmac secret raw (Some "wrong")) = 401 ∧
  status (postWebhook Sample.toy_hmac secret raw None) = 401.
Proof.
  intros secret raw. split; [|split].
  - apply (proj2 (proj2 (postWebhook_contract Sample.toy_hmac secret raw
                           (Some (Sample.toy_hmac secret raw))))
             (Sample.toy_hmac secret raw)); reflexivity.
  - apply (proj1 (proj2 (postWebhook_contract Sample.toy_hmac secret raw
                           (Some "wrong"))) "wrong").
    + reflexivity.
    + vm_compute. discriminate.
  - apply (proj1 (postWebhook_contract Sample.toy_hmac secret raw None)).
    reflexivity.
Defined.

(** ** Registration DTO *)

(** A property whose value violates one of its decorators shows up among
    the violations. *)
Lemma validate_violation (isEmail : string → bool) (characters : string → nat)
    (decorators : list (string * list Decorator)) (body : JsObject)
    (prop : string) (ds : list Decorator) (d : Decorator) :
  (prop, ds) ∈ decorators → d ∈ ds →
  satisfies isEmail characters d (get body prop) = false →
  (prop, d) ∈ validate isEmail characters decorators body.
Proof.
  intros Hprop Hd Hsat. unfold validate.
  apply list_elem_of_bind. exists (prop, ds). split; [|exact Hprop].
  apply list_elem_of_bind. exists d. split; [apply list_elem_of_here|].
  apply list_elem_of_filter. split; assumption.
Qed.




(** * Further properties of the credential service *)

(** X1. A registration that succeeds has made exactly four calls, in this
    order: the lookup by the request's e-mail (finding nothing), the
    hashing of the request's password with cost 10, the creation of a
    record that is the request's properties with [password] replaced by
    the hash, and the signing of [sub]/[email] taken from the record the
    store answered with.  The caller gets that record and that token. *)
Theorem register_success_trace
    {W} (h : Handler W) (w : W) (dto : RegisterDto.t) (r : AuthService.RegisterResult) :
  result (run h w (AuthService.register dto)) = Returned r →
  ∃ hashedPassword,
    trace (run h w (AuthService.register dto)) =
    [ Called (UserService_findByEmail (RegisterDto.email dto)) (Fulfilled None);
      Called (bcrypt_hash (RegisterDto.password dto) 10) (Fulfilled hashedPassword);
      Called (UserService_create
                (<["password" := VStr hashedPassword]> (RegisterDto.props dto)))
             (Fulfilled (AuthService.user r));
      Called (JwtService_sign
                (<["sub" := get (AuthService.user r) "id"]>
                   (<["email" := get (AuthService.user r) "email"]> ∅)))
             (Fulfilled (AuthService.accessToken r)) ].
Proof.
  rewrite register_run.
  destruct (h w (UserService_findByEmail _)) as [w1 [[u|]|e]] eqn:E; cbn;
    try discriminate.
  repeat step; try discriminate.
  intros [= <-]. cbn. eauto.
Qed.

(** The sample registration on the empty in-memory store. *)
Lemma register_success_trace_witness :
  let r := {| AuthService.user :=
                <["id" := VStr "u1"]>
                  (<["role" := VStr "USER"]>
                     (<["password" := VStr "$2b$10$password123"]>
                        (RegisterDto.props Sample.registration)));
              AuthService.accessToken := "jwt/u1/a@x.com" |} in
  ∃ hashedPassword,
    trace (run Mock.handler Mock.empty (AuthService.register Sample.registration)) =
    [ Called (UserService_findByEmail "a@x.com") (Fulfilled None);
      Called (bcrypt_hash "password123" 10) (Fulfilled hashedPassword);
      Called (UserService_create
                (<["password" := VStr hashedPassword]>
                   (RegisterDto.props Sample.registration)))
             (Fulfilled (AuthService.user r));
      Called (JwtService_sign
                (<["sub" := get (AuthService.user r) "id"]>
                   (<["email" := get (AuthService.user r) "email"]> ∅)))
             (Fulfilled (AuthService.accessToken r)) ].
Proof.
  intros r.
  apply (register_success_trace Mock.handler Mock.empty Sample.registration r).
  vm_compute. reflexivity.
Defined.

(** X2. Registration is not undone when its last step fails: if the
    record has been created and the signer then rejects, the caller gets
    the signer's error although the creation went through, and the world
    is the one with the record in it. *)
Theorem register_signer_failure_keeps_record
    {W} (h : Handler W) (w w1 w2 w3 w4 : W) (dto : RegisterDto.t)
    (hashedPassword : string) (user : JsObject) (e : JsError) :
  let data := <["password" := VStr hashedPassword]> (RegisterDto.props dto) in
  h w (UserService_findByEmail (RegisterDto.email dto)) = (w1, Fulfilled None) →
  h w1 (bcrypt_hash (RegisterDto.password dto) 10) = (w2, Fulfilled hashedPassword) →
  h w2 (UserService_create data) = (w3, Fulfilled user) →
  h w3 (JwtService_sign (<["sub" := get user "id"]> (<["email" := get user "email"]> ∅)))
    = (w4, Rejected e) →
  result (run h w (AuthService.register dto)) = Threw (Uncaught e) ∧
  final (run h w (AuthService.register dto)) = w4 ∧
  UserService_create data ∈ calls (trace (run h w (AuthService.register dto))).
Proof.
  cbv zeta. intros Efind Ehash Ecreate Esign.
  rewrite register_run, Efind. cbn. rewrite Ehash. cbn. rewrite Ecreate. cbn.
  rewrite Esign. cbn. repeat split.
  rewrite !elem_of_cons. auto.
Qed.

(** With the signer out of order the sample registration fails, the
    record is in the store all the same, and trying again is a conflict. *)
Lemma register_signer_failure_keeps_record_witness :
  let o := run signer_down Mock.empty (AuthService.register Sample.registration) in
  (result o = Threw (Uncaught Mock.unreachable) ∧
   final o = Sample.registered ∧
   UserService_create
     (<["password" := VStr "$2b$10$password123"]> (RegisterDto.props Sample.registration))
     ∈ calls (trace o)) ∧
  result (run signer_down (final o) (AuthService.register Sample.registration))
  = Threw (ConflictException "User already exists").
Proof.
  cbv zeta. split.
  - apply (register_signer_failure_keeps_record signer_down Mock.empty Mock.empty
             Mock.empty Sample.registered Sample.registered Sample.registration
             "$2b$10$password123"
             (<["id" := VStr "u1"]>
                (<["role" := VStr "USER"]>
                   (<["password" := VStr "$2b$10$password123"]>
                      (RegisterDto.props Sample.registration))))
             Mock.unreachable).
    + vm_compute. reflexivity.
    + vm_compute. reflexivity.
    + vm_compute. reflexivity.
    + vm_compute. reflexivity.
  - vm_compute. reflexivity.
Defined.

(** X3. Logging in and validating never write: no run of [login] or
    [validateUser] calls the store's [create] or [bcrypt.hash], whatever
    the collaborators answer. *)
Theorem login_never_creates_or_hashes
    {W} (h : Handler W) (w : W) (dto : LoginDto.t) (email pass : string) :
  forallb (λ c, negb (creates_or_hashes c))
          (calls (trace (run h w (AuthService.login dto)))) = true ∧
  forallb (λ c, negb (creates_or_hashes c))
          (calls (trace (run h w (AuthService.validateUser email pass)))) = true.
Proof.
  unfold AuthService.login, AuthService.validateUser. split; cbn.
  - destruct (h w (UserService_findByEmail _)) as [w1 [[u|]|e1]]; cbn; try done.
    destruct (truthy (get u "password")); cbn; try done.
    destruct (h w1 (bcrypt_compare _ _)) as [w2 [[|]|e2]]; cbn; try done.
    destruct (h w2 (JwtService_sign _)) as [w3 [t|e3]]; cbn; done.
  - destruct (h w (UserService_findByEmail _)) as [w1 [[u|]|e1]]; cbn; try done.
    destruct (truthy (get u "password")); cbn; try done.
    destruct (h w1 (bcrypt_compare _ _)) as [w2 [[|]|e2]]; cbn; done.
Qed.

(** X4. [validateUser] resolves to a record exactly when the lookup finds
    one with a usable password hash and bcrypt accepts the password; what
    it resolves to is that record with [password] removed and every other
    property as stored.  It throws nothing of its own: whatever it throws
    is a collaborator's error. *)
Theorem validateUser_result
    {W} (h : Handler W) (w : W) (email pass : string) :
  let o := run h w (AuthService.validateUser email pass) in
  (∀ result_user,
     result o = Returned (Some result_user) ↔
     ∃ w1 w2 user,
       h w (UserService_findByEmail email) = (w1, Fulfilled (Some user)) ∧
       truthy (get user "password") = true ∧
       h w1 (bcrypt_compare pass (get user "password")) = (w2, Fulfilled true) ∧
       result_user = delete "password" user ∧
       (∀ k, k ≠ "password" → get result_user k = get user k)) ∧
  (∀ e, result o = Threw e → ∃ err, e = Uncaught err).
Proof.
  cbv zeta. unfold AuthService.validateUser. cbn. split.
  - intros result_user.
    destruct (h w (UserService_findByEmail email)) as [w1 [[u|]|e1]] eqn:E; cbn.
    + destruct (truthy (get u "password")) eqn:Hpw; cbn.
      * destruct (h w1 (bcrypt_compare _ _)) as [w2 [[|]|e2]] eqn:Ecmp; cbn.
        -- split.
           ++ intros [= <-]. exists w1, w2, u. repeat split; try done.
              intros k Hk. by apply get_delete_ne.
           ++ intros (w1' & w2' & u' & [= <- <-] & _ & _ & -> & _). done.
        -- split; [discriminate|].
           intros (w1' & w2' & u' & [= <- <-] & _ & Hcmp & _).
           rewrite Ecmp in Hcmp. discriminate.
        -- split; [discriminate|].
           intros (w1' & w2' & u' & [= <- <-] & _ & Hcmp & _).
           rewrite Ecmp in Hcmp. discriminate.
      * split; [discriminate|].
        intros (w1' & w2' & u' & [= <- <-] & Hpw' & _). congruence.
    + split; [discriminate|]. intros (w1' & w2' & u' & [=] & _).
    + split; [discriminate|]. intros (w1' & w2' & u' & [=] & _).
  - intros e.
    destruct (h w (UserService_findByEmail email)) as [w1 [[u|]|e1]]; cbn;
      try discriminate.
    + destruct (truthy (get u "password")); cbn; try discriminate.
      destruct (h w1 (bcrypt_compare _ _)) as [w2 [[|]|e2]]; cbn;
        try discriminate.
      intros [= <-]. eauto.
    + intros [= <-]. eauto.
Qed.

(** The registered sample user, validated with the right password. *)
Lemma validateUser_result_witness :
  ∃ w1 w2 user,
    Mock.handler Sample.registered (UserService_findByEmail "a@x.com")
    = (w1, Fulfilled (Some user)) ∧
    truthy (get user "password") = true ∧
    Mock.handler w1 (bcrypt_compare "password123" (get user "password"))
    = (w2, Fulfilled true) ∧
    delete "password" user = delete "password" user ∧
    (∀ k, k ≠ "password" → get (delete "password" user) k = get user k).
Proof.
  pose proof (proj1 (validateUser_result Mock.handler Sample.registered
                       "a@x.com" "password123")) as Hiff.
  cbv zeta in Hiff.
  destruct (proj1 (Hiff _) eq_refl) as (w1 & w2 & user & Hfind & Hpw & Hcmp & Heq & Hk).
  exists w1, w2, user. rewrite Heq in Hk. auto.
Defined.

(** X5. When the lookup finds no record, or one without a usable password
    hash, [login] fails without ever calling bcrypt: the lookup is its
    only call. *)
Theorem login_skips_bcrypt_without_hash
    {W} (h : Handler W) (w w1 : W) (dto : LoginDto.t) (found : option JsObject) :
  h w (UserService_findByEmail (LoginDto.email dto)) = (w1, Fulfilled found) →
  (∀ user, found = Some user → truthy (get user "password") = false) →
  calls (trace (run h w (AuthService.login dto)))
  = [UserService_findByEmail (LoginDto.email dto)] ∧
  result (run h w (AuthService.login dto)) = Threw InvalidCredentials ∧
  final (run h w (AuthService.login dto)) = w1.
Proof.
  intros Efind Hnohash. unfold AuthService.login, AuthService.validateUser.
  cbn. rewrite Efind. cbn. destruct found as [user|]; cbn.
  - rewrite (Hnohash user eq_refl). cbn. done.
  - done.
Qed.

Lemma login_skips_bcrypt_without_hash_witness :
  calls (trace (run Mock.handler Mock.empty (AuthService.login Sample.good_login)))
  = [UserService_findByEmail "a@x.com"] ∧
  result (run Mock.handler Mock.empty (AuthService.login Sample.good_login))
  = Threw InvalidCredentials ∧
  final (run Mock.handler Mock.empty (AuthService.login Sample.good_login))
  = Mock.empty.
Proof.
  apply (login_skips_bcrypt_without_hash Mock.handler Mock.empty Mock.empty
           Sample.good_login None).
  - reflexivity.
  - intros user Hsome. discriminate Hsome.
Defined.

(** X6. Whatever [register] or [login] gives the signer has exactly the
    two claims [sub] and [email]: no password hash, no role and no name
    is ever signed into a token. *)
Theorem signed_payload_keys
    {W} (h : Handler W) (w : W) (rdto : RegisterDto.t) (ldto : LoginDto.t)
    (payload : JsObject) :
  JwtService_sign payload ∈ calls (trace (run h w (AuthService.register rdto))) ∨
  JwtService_sign payload ∈ calls (trace (run h w (AuthService.login ldto))) →
  dom payload = {[ "sub"; "email" ]}.
Proof.
  assert (∀ a b : JsVal,
            dom (<["sub" := a]> (<["email" := b]> (∅ : JsObject)))
            = ({[ "sub"; "email" ]} : gset string)) as Hdom.
  { intros a b. rewrite !dom_insert_L, dom_empty_L. set_solver. }
  intros [Hin|Hin]; revert Hin.
  - rewrite register_run.
    destruct (h w (UserService_findByEmail _)) as [w1 [[u|]|e]] eqn:E; cbn;
      repeat step; intros Hin;
      repeat (apply elem_of_cons in Hin as [Hin|Hin]);
      try discriminate; try (by apply elem_of_nil in Hin);
      injection Hin as ->; apply Hdom.
  - unfold AuthService.login, AuthService.validateUser. cbn.
    destruct (h w (UserService_findByEmail _)) as [w1 [[u|]|e1]]; cbn.
    + destruct (truthy (get u "password")); cbn.
      * destruct (h w1 (bcrypt_compare _ _)) as [w2 [[|]|e2]]; cbn.
        -- destruct (h w2 (JwtService_sign _)) as [w3 [t|e3]]; cbn;
             intros Hin;
             repeat (apply elem_of_cons in Hin as [Hin|Hin]);
             try discriminate; try (by apply elem_of_nil in Hin);
             injection Hin as ->; apply Hdom.
        -- intros Hin. repeat (apply elem_of_cons in Hin as [Hin|Hin]);
             try discriminate; by apply elem_of_nil in Hin.
        -- intros Hin. repeat (apply elem_of_cons in Hin as [Hin|Hin]);
             try discriminate; by apply elem_of_nil in Hin.
      * intros Hin. repeat (apply elem_of_cons in Hin as [Hin|Hin]);
          try discriminate; by apply elem_of_nil in Hin.
    + intros Hin. repeat (apply elem_of_cons in Hin as [Hin|Hin]);
        try discriminate; by apply elem_of_nil in Hin.
    + intros Hin. repeat (apply elem_of_cons in Hin as [Hin|Hin]);
        try discriminate; by apply elem_of_nil in Hin.
Qed.

(** The payload signed for the sample registration. *)
Lemma signed_payload_keys_witness :
  dom (<["sub" := VStr "u1"]> (<["email" := VStr "a@x.com"]> (∅ : JsObject)))
  = ({[ "sub"; "email" ]} : gset string).
Proof.
  apply (signed_payload_keys Mock.handler Mock.empty Sample.registration
           Sample.good_login).
  left. vm_compute. do 3 apply list_elem_of_further. apply list_elem_of_here.
Defined.


(** * Further properties of the DTOs *)

(** A body has no violations exactly when every decorator of every
    decorated property is satisfied. *)
Lemma validate_nil_iff (isEmail : string → bool) (characters : string → nat)
    (decorators : list (string * list Decorator)) (body : JsObject) :
  validate isEmail characters decorators body = [] ↔
  ∀ prop ds d, (prop, ds) ∈ decorators → d ∈ ds →
               satisfies isEmail characters d (get body prop) = true.
Proof.
  split.
  - intros Hnil prop ds d Hprop Hd.
    destruct (satisfies isEmail characters d (get body prop)) eqn:Hsat; [done|].
    pose proof (validate_violation isEmail characters decorators body prop ds d Hprop Hd Hsat)
      as Hin.
    rewrite Hnil in Hin. by apply elem_of_nil in Hin.
  - intros Hall.
    destruct (validate isEmail characters decorators body) as [|v vs] eqn:Hv; [done|].
    assert (v ∈ validate isEmail characters decorators body) as Hin.
    { rewrite Hv. apply list_elem_of_here. }
    unfold validate in Hin.
    apply list_elem_of_bind in Hin as ([prop ds] & Hin & Hprop).
    apply list_elem_of_bind in Hin as (d & _ & Hd).
    apply list_elem_of_filter in Hd as [Hsat Hd].
    rewrite (Hall prop ds d Hprop Hd) in Hsat. discriminate.
Qed.

(** The bodies [RegisterDto] has nothing against. *)
Lemma RegisterDto_valid (isEmail : string → bool) (characters : string → nat)
    (body : JsObject) :
  validate isEmail characters RegisterDto_decorators body = [] ↔
  (∃ e, get body "email" = VStr e ∧ isEmail e = true) ∧
  (∃ p, get body "password" = VStr p ∧ (8 ≤ characters p ≤ 32)%nat) ∧
  (∃ n, get body "name" = VStr n).
Proof.
  rewrite validate_nil_iff. unfold RegisterDto_decorators. split.
  - intros Hall. split; [|split].
    + specialize (Hall "email" [IsEmail] IsEmail).
      rewrite !elem_of_cons in Hall.
      destruct (get body "email") as [| | | |e| |];
        try (by (discriminate Hall; auto)).
      exists e. split; [done|]. apply Hall; auto.
    + pose proof (Hall "password" [IsString; MinLength 8; MaxLength 32]
                    (MinLength 8)) as Hmin.
      pose proof (Hall "password" [IsString; MinLength 8; MaxLength 32]
                    (MaxLength 32)) as Hmax.
      rewrite !elem_of_cons in Hmin, Hmax.
      destruct (get body "password") as [| | | |p| |];
        try (by (discriminate Hmin; auto)).
      exists p. split; [done|].
      cbn in Hmin, Hmax. rewrite bool_decide_eq_true in Hmin, Hmax.
      split; [apply Hmin; auto|apply Hmax; auto].
    + specialize (Hall "name" [IsString] IsString).
      rewrite !elem_of_cons in Hall.
      destruct (get body "name") as [| | | |n| |];
        try (by (discriminate Hall; auto)).
      eauto.
  - intros ((e & He & Hvalid) & (p & Hp & Hmin & Hmax) & (n & Hn)) prop ds d Hprop Hd.
    rewrite !elem_of_cons in Hprop.
    destruct Hprop as [[= -> ->]|[[= -> ->]|[[= -> ->]|Hnil]]];
      [| | |by apply elem_of_nil in Hnil];
      rewrite !elem_of_cons in Hd.
    + destruct Hd as [->|Hnil]; [|by apply elem_of_nil in Hnil].
      rewrite He. exact Hvalid.
    + rewrite Hp.
      destruct Hd as [->|[->|[->|Hnil]]]; [| | |by apply elem_of_nil in Hnil]; cbn.
      * done.
      * by apply bool_decide_eq_true_2.
      * by apply bool_decide_eq_true_2.
    + destruct Hd as [->|Hnil]; [|by apply elem_of_nil in Hnil].
      rewrite Hn. done.
Qed.

(** X7. [RegisterDto] accepts a body exactly when its e-mail is a string
    that is a valid address, its password a string of 8 to 32 characters,
    and its name a string.  A body without [name] is therefore turned
    away, although the class types the property as optional. *)
Theorem RegisterDto_accepts_iff (isEmail : string → bool) (characters : string → nat)
    (body : JsObject) :
  (validate isEmail characters RegisterDto_decorators body = [] ↔
   (∃ e, get body "email" = VStr e ∧ isEmail e = true) ∧
   (∃ p, get body "password" = VStr p ∧
         (8 ≤ characters p ≤ 32)%nat) ∧
   (∃ n, get body "name" = VStr n)) ∧
  (body !! "name" = None →
   validate isEmail characters RegisterDto_decorators body ≠ []).
Proof.
  split; [apply RegisterDto_valid|].
  intros Hnone Hnil. apply RegisterDto_valid in Hnil as (_ & _ & n & Hn).
  unfold get in Hn. rewrite Hnone in Hn. discriminate.
Qed.

(** A complete body is accepted; the same body without its name is not. *)
Lemma RegisterDto_accepts_iff_witness :
  let body : JsObject :=
    <["email" := VStr "a@x.com"]> {[ "password" := VStr "password123" ]} in
  validate Sample.toy_isEmail Sample.code_points RegisterDto_decorators
    (<["name" := VStr "Ada"]> body) = [] ∧
  validate Sample.toy_isEmail Sample.code_points RegisterDto_decorators body ≠ [].
Proof.
  intros body. split.
  - apply (proj1 (RegisterDto_accepts_iff Sample.toy_isEmail Sample.code_points
                    (<["name" := VStr "Ada"]> body))).
    split; [|split].
    + exists "a@x.com". split; vm_compute; reflexivity.
    + exists "password123". split; [vm_compute; reflexivity|cbn; lia].
    + exists "Ada". vm_compute. reflexivity.
  - apply (proj2 (RegisterDto_accepts_iff Sample.toy_isEmail Sample.code_points body)).
    vm_compute. reflexivity.
Defined.

(** The bodies [LoginDto] has nothing against. *)
Lemma LoginDto_valid (isEmail : string → bool) (characters : string → nat)
    (body : JsObject) :
  validate isEmail characters LoginDto_decorators body = [] ↔
  (∃ e, get body "email" = VStr e ∧ isEmail e = true) ∧
  (∃ p, get body "password" = VStr p).
Proof.
  rewrite validate_nil_iff. unfold LoginDto_decorators. split.
  - intros Hall. split.
    + specialize (Hall "email" [IsEmail] IsEmail).
      rewrite !elem_of_cons in Hall.
      destruct (get body "email") as [| | | |e| |];
        try (by (discriminate Hall; auto)).
      exists e. split; [done|]. apply Hall; auto.
    + specialize (Hall "password" [IsString] IsString).
      rewrite !elem_of_cons in Hall.
      destruct (get body "password") as [| | | |p| |];
        try (by (discriminate Hall; auto)).
      eauto.
  - intros ((e & He & Hvalid) & (p & Hp)) prop ds d Hprop Hd.
    rewrite !elem_of_cons in Hprop.
    destruct Hprop as [[= -> ->]|[[= -> ->]|Hnil]];
      [| |by apply elem_of_nil in Hnil];
      rewrite !elem_of_cons in Hd.
    + destruct Hd as [->|Hnil]; [|by apply elem_of_nil in Hnil].
      rewrite He. exact Hvalid.
    + destruct Hd as [->|Hnil]; [|by apply elem_of_nil in Hnil].
      rewrite Hp. done.
Qed.

(** X8. [LoginDto] accepts a body exactly when its e-mail is a string
    that is a valid address and its password is a string; no length is
    asked of the password, so with a valid e-mail every string passes,
    the empty one included. *)
Theorem LoginDto_accepts_iff (isEmail : string → bool) (characters : string → nat)
    (body : JsObject) :
  (validate isEmail characters LoginDto_decorators body = [] ↔
   (∃ e, get body "email" = VStr e ∧ isEmail e = true) ∧
   (∃ p, get body "password" = VStr p)) ∧
  (∀ e p, isEmail e = true →
          validate isEmail characters LoginDto_decorators
            (<["email" := VStr e]> {[ "password" := VStr p ]}) = []).
Proof.
  split; [apply LoginDto_valid|].
  intros e p Hvalid. apply LoginDto_valid. split.
  - exists e. split; [|exact Hvalid]. unfold get. by rewrite lookup_insert_eq.
  - exists p. unfold get.
    rewrite lookup_insert_ne by done. by rewrite lookup_singleton_eq.
Qed.

(** A login body with the empty password passes validation. *)
Lemma LoginDto_accepts_iff_witness :
  validate Sample.toy_isEmail Sample.code_points LoginDto_decorators
    (<["email" := VStr "a@x.com"]> {[ "password" := VStr EmptyString ]}) = [].
Proof.
  apply (proj2 (LoginDto_accepts_iff Sample.toy_isEmail Sample.code_points ∅) "a@x.com" EmptyString).
  vm_compute. reflexivity.
Defined.

(** X9. What [RegisterDto] accepts, [LoginDto] accepts as well: the
    credentials of any registration that passed validation pass the
    validation of the login route. *)
Theorem RegisterDto_accepted_is_LoginDto_accepted
    (isEmail : string → bool) (characters : string → nat) (body : JsObject) :
  validate isEmail characters RegisterDto_decorators body = [] →
  validate isEmail characters LoginDto_decorators body = [].
Proof.
  intros Hreg. apply RegisterDto_valid in Hreg as ((e & He) & (p & Hp & _) & _).
  apply LoginDto_valid. eauto.
Qed.

Lemma RegisterDto_accepted_is_LoginDto_accepted_witness :
  let body : JsObject :=
    <["name" := VStr "Ada"]>
      (<["email" := VStr "a@x.com"]> {[ "password" := VStr "password123" ]}) in
  validate Sample.toy_isEmail Sample.code_points LoginDto_decorators body = [].
Proof.
  intros body.
  apply (RegisterDto_accepted_is_LoginDto_accepted Sample.toy_isEmail
           Sample.code_points body).
  vm_compute. reflexivity.
Defined.


(** * Further properties of the role guard *)

(** The guard lets through exactly: routes without required roles, and
    attached users whose role is required. *)
Lemma allows_canActivate (roleValue : Role → string) (context : ExecutionContext) :
  allows (canActivate roleValue context) = true ↔
  match getAllAndOverride context with
  | None | Some [] => True
  | Some requiredRoles =>
      ∃ user, request_user context = Some user ∧ role user ∈ requiredRoles
  end.
Proof.
  unfold canActivate.
  destruct (getAllAndOverride context) as [[|r0 rs]|]; [done| |done].
  destruct (request_user context) as [user|]; cbn [allows].
  - destruct (existsb _ (r0 :: rs)) eqn:Hex; cbn [negb allows].
    + apply existsb_role in Hex. split; eauto.
    + split; [discriminate|]. intros (u & [= <-] & Hin).
      apply existsb_role in Hin. congruence.
  - split; [discriminate|]. intros (u & [=] & _).
Qed.

(** X10. The guard never answers [false]: it returns [true] or throws a
    [ForbiddenException], and it throws only on a route that has
    required roles. *)
Theorem canActivate_true_or_forbidden
    (roleValue : Role → string) (context : ExecutionContext) :
  canActivate roleValue context = Returned true ∨
  (∃ msg r0 rs, canActivate roleValue context = Threw (ForbiddenException msg) ∧
                getAllAndOverride context = Some (r0 :: rs)).
Proof.
  unfold canActivate.
  destruct (getAllAndOverride context) as [[|r0 rs]|]; [by left| |by left].
  destruct (request_user context) as [user|]; [|right; eauto].
  destruct (existsb _ (r0 :: rs)); cbn [negb]; [by left|right; eauto].
Qed.

(** X11. The required roles act as a set: two declarations with the same
    members, in whatever order and with whatever repetitions, let the
    same requests through. *)
Theorem canActivate_roles_as_set (roleValue : Role → string)
    (requiredRoles requiredRoles' : list Role) (user : option RequestUser) :
  (∀ r, r ∈ requiredRoles ↔ r ∈ requiredRoles') →
  allows (canActivate roleValue {| getAllAndOverride := Some requiredRoles;
                                   request_user := user |})
  = allows (canActivate roleValue {| getAllAndOverride := Some requiredRoles';
                                     request_user := user |}).
Proof.
  intros Hsame.
  apply eq_true_iff_eq. rewrite !allows_canActivate. cbn.
  destruct requiredRoles as [|r0 rs], requiredRoles' as [|r0' rs']; try done.
  - exfalso. eapply elem_of_nil, Hsame, list_elem_of_here.
  - exfalso. eapply elem_of_nil, Hsame, list_elem_of_here.
  - split; intros (u & Hu & Hin); exists u; (split; [done|]); by apply Hsame.
Qed.

Lemma canActivate_roles_as_set_witness :
  allows (canActivate (λ _, "r") {| getAllAndOverride := Some [USER; ADMIN];
                                    request_user := Some {| role := ADMIN |} |})
  = allows (canActivate (λ _, "r") {| getAllAndOverride := Some [ADMIN; USER; ADMIN];
                                      request_user := Some {| role := ADMIN |} |}).
Proof.
  apply (canActivate_roles_as_set (λ _, "r") [USER; ADMIN] [ADMIN; USER; ADMIN]).
  intros r. rewrite !elem_of_cons. destruct r; split; auto.
Defined.

(** X12. Adding roles to a route that already requires some never shuts
    out a request that was let through.  Only the step from no required
    role to some can: it shuts out requests without a user. *)
Theorem canActivate_more_roles (roleValue : Role → string)
    (requiredRoles extra : list Role) (user : option RequestUser) :
  (requiredRoles ≠ [] →
   allows (canActivate roleValue {| getAllAndOverride := Some requiredRoles;
                                    request_user := user |}) = true →
   allows (canActivate roleValue {| getAllAndOverride := Some (requiredRoles ++ extra)%list;
                                    request_user := user |}) = true) ∧
  (extra ≠ [] →
   allows (canActivate roleValue {| getAllAndOverride := Some [];
                                    request_user := None |}) = true ∧
   allows (canActivate roleValue {| getAllAndOverride := Some ([] ++ extra)%list;
                                    request_user := None |}) = false).
Proof.
  split.
  - intros Hne. rewrite !allows_canActivate. cbn.
    destruct requiredRoles as [|r0 rs]; [done|]. cbn.
    intros (u & Hu & Hin). exists u. split; [done|].
    rewrite app_comm_cons. apply elem_of_app. by left.
  - intros Hne. split; [reflexivity|].
    destruct extra as [|r0 rs]; [done|]. reflexivity.
Qed.

Lemma canActivate_more_roles_witness :
  allows (canActivate (λ _, "r") {| getAllAndOverride := Some ([USER] ++ [ADMIN])%list;
                                    request_user := Some {| role := USER |} |}) = true ∧
  allows (canActivate (λ _, "r") {| getAllAndOverride := Some ([] ++ [ADMIN])%list;
                                    request_user := None |}) = false.
Proof.
  split.
  - apply (proj1 (canActivate_more_roles (λ _, "r") [USER] [ADMIN]
                    (Some {| role := USER |}))).
    + discriminate.
    + reflexivity.
  - apply (proj2 (canActivate_more_roles (λ _, "r") [USER] [ADMIN] None)).
    discriminate.
Defined.

(** X13. Requiring every role is not the same as requiring none: a route
    that lists both [USER] and [ADMIN] lets through every attached user
    whose role is [USER] or [ADMIN], but a request without a user is
    refused with "No authenticated user found on request.", while a
    route without required roles lets it through. *)
Theorem canActivate_all_roles_needs_user (roleValue : Role → string)
    (requiredRoles : list Role) :
  USER ∈ requiredRoles → ADMIN ∈ requiredRoles →
  (∀ user, role user = USER ∨ role user = ADMIN →
           canActivate roleValue {| getAllAndOverride := Some requiredRoles;
                                    request_user := Some user |} = Returned true) ∧
  canActivate roleValue {| getAllAndOverride := Some requiredRoles;
                           request_user := None |}
  = Threw (ForbiddenException "No authenticated user found on request.") ∧
  canActivate roleValue {| getAllAndOverride := None; request_user := None |}
  = Returned true.
Proof.
  intros Huser Hadmin. split; [|split].
  - intros user Hrole. unfold canActivate. cbn.
    destruct requiredRoles as [|r0 rs]; [by apply elem_of_nil in Huser|].
    assert (existsb (λ r, bool_decide (role user = r)) (r0 :: rs) = true) as ->.
    { apply existsb_role. destruct Hrole as [-> | ->]; done. }
    reflexivity.
  - unfold canActivate. cbn. destruct requiredRoles as [|r0 rs]; [|done].
    by apply elem_of_nil in Huser.
  - reflexivity.
Qed.

Lemma canActivate_all_roles_needs_user_witness :
  canActivate (λ _, "r") {| getAllAndOverride := Some [USER; ADMIN];
                            request_user := Some {| role := ADMIN |} |}
  = Returned true ∧
  canActivate (λ _, "r") {| getAllAndOverride := Some [USER; ADMIN];
                            request_user := None |}
  = Threw (ForbiddenException "No authenticated user found on request.").
Proof.
  split.
  - apply (proj1 (canActivate_all_roles_needs_user (λ _, "r") [USER; ADMIN]
                    (list_elem_of_here _ _)
                    (list_elem_of_further _ _ _ (list_elem_of_here _ _)))
             {| role := ADMIN |}).
    right. reflexivity.
  - apply (canActivate_all_roles_needs_user (λ _, "r") [USER; ADMIN]).
    + apply list_elem_of_here.
    + apply list_elem_of_further, list_elem_of_here.
Defined.


(** * Further properties of the Stellar service *)

Lemma calls_app (t1 t2 : list Event) : calls (t1 ++ t2) = (calls t1 ++ calls t2)%list.
Proof.
  induction t1 as [|[c r|lvl msg] t1 IH]; cbn; [done| |done]. by rewrite IH.
Qed.

Lemma failures_app (t1 t2 : list Event) :
  failures (t1 ++ t2) = (failures t1 ++ failures t2)%list.
Proof.
  induction t1 as [|[c [x|e]|lvl msg] t1 IH]; cbn; [done|done| |done].
  by rewrite IH.
Qed.

Lemma logs_app (t1 t2 : list Event) : logs (t1 ++ t2) = (logs t1 ++ logs t2)%list.
Proof.
  induction t1 as [|[c r|lvl msg] t1 IH]; cbn; [done|done|]. by rewrite IH.
Qed.

(** Mapping a callback that always returns: the runs follow one another
    and the traces are appended. *)
Lemma run_mapM_cons {W A B} (h : Handler W) (w : W) (f : A → Prog B)
    (x : A) (l : list A) :
  run h w (mapM f (x :: l)) =
  let o1 := run h w (f x) in
  match result o1 with
  | Returned y =>
      let o2 := run h (final o1) (mapM f l) in
      {| final := final o2;
         trace := trace o1 ++ trace o2;
         result := match result o2 with
                   | Returned k => Returned (y :: k)
                   | Threw e => Threw e
                   end |}
  | Threw e => {| final := final o1; trace := trace o1; result := Threw e |}
  end.
Proof.
  cbn [mapM]. rewrite run_bind. cbv zeta.
  destruct (result (run h w (f x))) as [y|e]; [|reflexivity].
  rewrite run_bind. cbv zeta.
  destruct (result (run h (final (run h w (f x))) (mapM f l))) as [k|e];
    cbn; by rewrite ?app_nil_r.
Qed.

(** One record: one operations query, and a warning exactly when it was
    rejected. *)
Lemma toTransactionDto_trace {W} (h : Handler W) (w : W) (tx : JsObject) :
  let o := run h w (StellarService.toTransactionDto tx) in
  calls (trace o) = [Tx_operations tx] ∧
  length (logs (trace o)) = length (failures (trace o)).
Proof.
  cbv zeta. rewrite toTransactionDto_run.
  destruct (h w (Tx_operations tx)) as [w1 [[|op ops]|e]]; cbn; done.
Qed.

Lemma mapM_toTransactionDto_trace {W} (h : Handler W) (w : W) (txs : list JsObject) :
  let o := run h w (mapM StellarService.toTransactionDto txs) in
  calls (trace o) = Tx_operations <$> txs ∧
  length (logs (trace o)) = length (failures (trace o)).
Proof.
  cbv zeta. revert w. induction txs as [|tx txs IH]; intros w; [done|].
  rewrite run_mapM_cons. cbv zeta.
  destruct (toTransactionDto_returns h w tx) as (amount & token & Htx).
  rewrite Htx. cbn [trace].
  destruct (toTransactionDto_trace h w tx) as [Hcalls Hlogs].
  destruct (IH (final (run h w (StellarService.toTransactionDto tx))))
    as [IHcalls IHlogs].
  rewrite calls_app, logs_app, failures_app, !length_app.
  rewrite Hcalls, IHcalls, Hlogs, IHlogs. done.
Qed.

(** The whole run of [getRecentTransactions], by the answer to the
    transactions query. *)
Lemma getRecentTransactions_run
    {W} (h : Handler W) (w : W) (publicKey : string) (limit : option Z) :
  let query := Horizon_transactions publicKey (default 10 limit) "desc" in
  run h w (StellarService.getRecentTransactions publicKey limit) =
  match h w query with
  | (w1, Fulfilled txs) =>
      let o := run h w1 (mapM StellarService.toTransactionDto txs) in
      {| final := final o;
         trace := Called query (Fulfilled txs) :: trace o;
         result := result o |}
  | (w1, Rejected e) =>
      {| final := w1;
         trace := [Called query (Rejected e);
                   Logged ErrorLevel
                     ("Failed to fetch transactions for " +:+ publicKey +:+ ": "
                      +:+ message e)];
         result := Returned [] |}
  end.
Proof.
  cbv zeta. unfold StellarService.getRecentTransactions. cbv zeta.
  rewrite run_try_catch. cbv zeta.
  rewrite (run_bind_await h w (Horizon_transactions publicKey (default 10 limit) "desc")).
  destruct (h w (Horizon_transactions _ _ _)) as [w1 [txs|e]]; [|reflexivity].
  cbv zeta. cbn [result final trace].
  rewrite run_bind. cbv zeta.
  destruct (mapM_toTransactionDto_run h w1 txs) as (entries & Hres & _).
  rewrite Hres. cbv beta iota. cbn [run result final trace].
  by rewrite app_nil_r.
Qed.

(** X14. The listing asks Horizon once for the account's transactions,
    newest first, with the limit (10 by default), and then once per
    record, in the order of the records, for its operations: no other
    call, no record skipped.  If the first query is rejected it is the
    only call. *)
Theorem getRecentTransactions_calls
    {W} (h : Handler W) (w w1 : W) (publicKey : string) (limit : option Z) :
  let query := Horizon_transactions publicKey (default 10 limit) "desc" in
  let o := run h w (StellarService.getRecentTransactions publicKey limit) in
  (∀ txs, h w query = (w1, Fulfilled txs) →
          calls (trace o) = query :: (Tx_operations <$> txs)) ∧
  (∀ e, h w query = (w1, Rejected e) → calls (trace o) = [query]).
Proof.
  cbv zeta. rewrite getRecentTransactions_run. cbv zeta. split.
  - intros txs ->. cbn [trace calls].
    by destruct (mapM_toTransactionDto_trace h w1 txs) as [-> _].
  - intros e ->. reflexivity.
Qed.

(** The sample ledger: one query for the account, one per transaction. *)
Lemma getRecentTransactions_calls_witness :
  calls (trace (run Mock.handler Sample.funded
                  (StellarService.getRecentTransactions "GA" None)))
  = [ Horizon_transactions "GA" 10 "desc";
      Tx_operations Sample.tx1; Tx_operations Sample.tx2; Tx_operations Sample.tx3 ] ∧
  calls (trace (run Mock.handler Mock.offline
                  (StellarService.getRecentTransactions "GA" None)))
  = [ Horizon_transactions "GA" 10 "desc" ].
Proof.
  split.
  - apply (proj1 (getRecentTransactions_calls Mock.handler Sample.funded
                    Sample.funded "GA" None) [Sample.tx1; Sample.tx2; Sample.tx3]).
    vm_compute. reflexivity.
  - apply (proj2 (getRecentTransactions_calls Mock.handler Mock.offline
                    Mock.offline "GA" None) Mock.unreachable).
    vm_compute. reflexivity.
Defined.

Lemma tokenOf_truthy (op : JsObject) :
  truthy (StellarService.tokenOf op (VStr "XLM")) = true.
Proof.
  unfold StellarService.tokenOf.
  destruct (strict_eq _ _ || instanceof_Asset _); [done|].
  destruct (is_string (get op "asset_code") && truthy (get op "asset_code")) eqn:Hcode.
  { by apply andb_true_iff in Hcode as [_ ?]. }
  destruct (truthy (get op "buying_asset_code")) eqn:Hbuy; [done|].
  destruct (truthy (get op "selling_asset_code")) eqn:Hsell; done.
Qed.

(** What the callback's entry says of its record. *)
Lemma toTransactionDto_entry {W} (h : Handler W) (w : W) (tx entry : JsObject) :
  result (run h w (StellarService.toTransactionDto tx)) = Returned entry →
  get entry "hash" = get tx "hash" ∧
  get entry "date" = get tx "created_at" ∧
  is_string (get entry "amount") = true ∧
  truthy (get entry "token") = true.
Proof.
  rewrite toTransactionDto_run.
  destruct (h w (Tx_operations tx)) as [w1 [[|op ops]|e]]; cbn [result];
    intros [= <-];
    destruct (get_TransactionDto tx (VStr "0") (VStr "XLM")) as (Hd & Ha & Ht & Hh);
    try (rewrite Hd, Ha, Ht, Hh; done).
  clear Hd Ha Ht Hh.
  match goal with
  | |- context [StellarService.TransactionDto tx ?a ?t] =>
      destruct (get_TransactionDto tx a t) as (Hd & Ha & Ht & Hh)
  end.
  rewrite Hd, Ha, Ht, Hh. repeat split.
  - by destruct (is_string (get op "amount")) eqn:Hs.
  - apply tokenOf_truthy.
Qed.

(** X15. The listing keeps the records' order and identity: there are as
    many entries as records Horizon answered with, and the i-th entry
    carries the [hash] of the i-th record and its [created_at] as
    [date], whether or not the record's operations could be fetched. *)
Theorem getRecentTransactions_keeps_order
    {W} (h : Handler W) (w w1 : W) (publicKey : string) (limit : option Z)
    (txs : list JsObject) :
  h w (Horizon_transactions publicKey (default 10 limit) "desc") = (w1, Fulfilled txs) →
  ∃ entries,
    result (run h w (StellarService.getRecentTransactions publicKey limit))
    = Returned entries ∧
    length entries = length txs ∧
    Forall2 (λ tx entry, get entry "hash" = get tx "hash" ∧
                         get entry "date" = get tx "created_at")
            txs entries.
Proof.
  intros Hq.
  pose proof (getRecentTransactions_outcome h w publicKey limit) as Hout.
  cbv zeta in Hout. rewrite Hq in Hout.
  destruct Hout as (entries & Hres & Hall).
  exists entries. split; [exact Hres|]. split.
  - symmetry. exact (Forall2_length _ _ _ Hall).
  - eapply Forall2_impl; [exact Hall|].
    intros tx entry (w2 & Hentry). cbn.
    apply toTransactionDto_entry in Hentry. tauto.
Qed.

Lemma getRecentTransactions_keeps_order_witness :
  ∃ entries,
    result (run Mock.handler Sample.funded
              (StellarService.getRecentTransactions "GA" None))
    = Returned entries ∧
    length entries = 3%nat ∧
    Forall2 (λ tx entry, get entry "hash" = get tx "hash" ∧
                         get entry "date" = get tx "created_at")
            [Sample.tx1; Sample.tx2; Sample.tx3] entries.
Proof.
  apply (getRecentTransactions_keeps_order Mock.handler Sample.funded Sample.funded
           "GA" None [Sample.tx1; Sample.tx2; Sample.tx3]).
  vm_compute. reflexivity.
Defined.

(** X16. In every entry the listing returns, [amount] is a string and
    [token] is truthy: neither is ever missing, [null] or, for the
    token, empty. *)
Theorem getRecentTransactions_amount_and_token
    {W} (h : Handler W) (w : W) (publicKey : string) (limit : option Z)
    (entries : list JsObject) :
  result (run h w (StellarService.getRecentTransactions publicKey limit))
  = Returned entries →
  Forall (λ entry, is_string (get entry "amount") = true ∧
                   truthy (get entry "token") = true)
         entries.
Proof.
  pose proof (getRecentTransactions_outcome h w publicKey limit) as Hout.
  cbv zeta in Hout.
  destruct (h w (Horizon_transactions _ _ _)) as [w1 [txs|e]].
  - destruct Hout as (entries' & -> & Hall). intros [= <-].
    apply Forall_lookup. intros i entry Hi.
    destruct (Forall2_lookup_r _ _ _ _ _ Hall Hi) as (tx & _ & w2 & Htx).
    apply toTransactionDto_entry in Htx. tauto.
  - destruct Hout as (-> & _). intros [= <-]. constructor.
Qed.

Lemma getRecentTransactions_amount_and_token_witness :
  Forall (λ entry : JsObject, is_string (get entry "amount") = true ∧
                              truthy (get entry "token") = true)
    [ StellarService.TransactionDto Sample.tx1 (VStr "10.0") (VStr "XLM");
      StellarService.TransactionDto Sample.tx2 (VStr "0") (VStr "XLM");
      StellarService.TransactionDto Sample.tx3 (VStr "0") (VStr "XLM") ].
Proof.
  apply (getRecentTransactions_amount_and_token Mock.handler Sample.funded "GA" None).
  vm_compute. reflexivity.
Defined.

(** X17. Only the first operation of a transaction counts: the entry is
    the same whatever operations follow it. *)
Theorem toTransactionDto_first_operation_only
    {W W'} (h : Handler W) (h' : Handler W') (w w1 : W) (w' w1' : W')
    (tx op : JsObject) (ops ops' : list JsObject) :
  h w (Tx_operations tx) = (w1, Fulfilled (op :: ops)) →
  h' w' (Tx_operations tx) = (w1', Fulfilled (op :: ops')) →
  result (run h w (StellarService.toTransactionDto tx))
  = result (run h' w' (StellarService.toTransactionDto tx)).
Proof.
  intros Hq Hq'. rewrite !toTransactionDto_run, Hq, Hq'. reflexivity.
Qed.

(** X18. The token of an operation: a native asset, or an [Asset]
    instance, is XLM whatever codes the operation also carries; otherwise
    a non-empty [asset_code] is the token; and an operation that is not
    native and has an empty [asset_code] and no buying or selling code is
    reported under the default all the same. *)
Theorem tokenOf_precedence (op : JsObject) (token : JsVal) :
  (get op "asset_type" = VStr "native" ∨ get op "asset" = VAsset →
   StellarService.tokenOf op token = VStr "XLM") ∧
  (∀ code, get op "asset_type" ≠ VStr "native" → get op "asset" ≠ VAsset →
           get op "asset_code" = VStr code → code ≠ EmptyString →
           StellarService.tokenOf op token = VStr code) ∧
  (get op "asset_type" ≠ VStr "native" → get op "asset" ≠ VAsset →
   get op "asset_code" = VStr EmptyString →
   truthy (get op "buying_asset_code") = false →
   truthy (get op "selling_asset_code") = false →
   StellarService.tokenOf op token = token).
Proof.
  assert (∀ v, v ≠ VAsset → instanceof_Asset v = false) as Hnot.
  { intros []; done. }
  unfold StellarService.tokenOf, strict_eq. split; [|split].
  - intros [-> | ->]; [done|]. by rewrite orb_true_r.
  - intros code Hty Has Hcode Hne.
    rewrite bool_decide_eq_false_2, (Hnot _ Has), Hcode by done. cbn.
    destruct code; [done|reflexivity].
  - intros Hty Has Hcode Hbuy Hsell.
    rewrite bool_decide_eq_false_2, (Hnot _ Has), Hcode, Hbuy, Hsell by done.
    reflexivity.
Qed.

(** A native payment that also carries an asset code is XLM; a credit
    payment goes by its code. *)
Lemma tokenOf_precedence_witness :
  StellarService.tokenOf (<["asset_code" := VStr "USDC"]> Sample.payment) (VStr "XLM")
  = VStr "XLM" ∧
  StellarService.tokenOf
    (<["asset_code" := VStr "USDC"]> {[ "asset_type" := VStr "credit_alphanum4" ]})
    (VStr "XLM")
  = VStr "USDC".
Proof.
  split.
  - apply (proj1 (tokenOf_precedence
                    (<["asset_code" := VStr "USDC"]> Sample.payment) (VStr "XLM"))).
    left. vm_compute. reflexivity.
  - apply (proj1 (proj2 (tokenOf_precedence
                           (<["asset_code" := VStr "USDC"]>
                              {[ "asset_type" := VStr "credit_alphanum4" ]})
                           (VStr "XLM"))) "USDC").
    + vm_compute. discriminate.
    + vm_compute. discriminate.
    + vm_compute. reflexivity.
    + discriminate.
Defined.

(** The first sample transaction, once with its payment alone and once
    with a second operation after it. *)
Lemma toTransactionDto_first_operation_only_witness :
  let two_operations : Mock.World :=
    {| Mock.users := ∅; Mock.nextId := 1; Mock.horizonUp := true;
       Mock.ledger := {[ "GA" := [Sample.tx1] ]};
       Mock.operations := {[ "h1" := [Sample.payment; Sample.bump] ]};
       Mock.rpcUp := true |} in
  result (run Mock.handler Sample.funded (StellarService.toTransactionDto Sample.tx1))
  = result (run Mock.handler two_operations (StellarService.toTransactionDto Sample.tx1)).
Proof.
  intros two_operations.
  apply (toTransactionDto_first_operation_only Mock.handler Mock.handler
           Sample.funded Sample.funded two_operations two_operations
           Sample.tx1 Sample.payment [] [Sample.bump]).
  - vm_compute. reflexivity.
  - vm_compute. reflexivity.
Defined.

(** X19. What the Stellar service swallows or rethrows, it logs, once:
    in every run of the listing and of the health check there are as many
    log lines as rejected calls.  A health check that goes through logs
    nothing and hands back the server's answer. *)
Theorem stellar_failures_are_logged
    {W} (h : Handler W) (w : W) (publicKey : string) (limit : option Z) :
  length (logs (trace (run h w (StellarService.getRecentTransactions publicKey limit))))
  = length (failures
              (trace (run h w (StellarService.getRecentTransactions publicKey limit)))) ∧
  length (logs (trace (run h w StellarService.getHealth)))
  = length (failures (trace (run h w StellarService.getHealth))) ∧
  (∀ w1 health, h w Rpc_getHealth = (w1, Fulfilled health) →
     result (run h w StellarService.getHealth) = Returned health ∧
     logs (trace (run h w StellarService.getHealth)) = []) ∧
  (∀ w1 e, h w Rpc_getHealth = (w1, Rejected e) →
     logs (trace (run h w StellarService.getHealth))
     = [(ErrorLevel, "Failed to get Stellar RPC health")]).
Proof.
  split; [|split; [|split]].
  - rewrite getRecentTransactions_run. cbv zeta.
    destruct (h w (Horizon_transactions _ _ _)) as [w1 [txs|e]]; [|reflexivity].
    cbn [trace logs failures].
    by destruct (mapM_toTransactionDto_trace h w1 txs) as [_ ->].
  - unfold StellarService.getHealth. cbn.
    destruct (h w Rpc_getHealth) as [w1 [x|e]]; reflexivity.
  - intros w1 health Hq. unfold StellarService.getHealth. cbn.
    rewrite Hq. done.
  - intros w1 e Hq. unfold StellarService.getHealth. cbn.
    rewrite Hq. done.
Qed.

Lemma stellar_failures_are_logged_witness :
  logs (trace (run Mock.handler Mock.offline StellarService.getHealth))
  = [(ErrorLevel, "Failed to get Stellar RPC health")] ∧
  result (run Mock.handler Mock.empty StellarService.getHealth)
  = Returned {[ "status" := VStr "healthy" ]}.
Proof.
  split.
  - apply (proj2 (proj2 (proj2 (stellar_failures_are_logged Mock.handler Mock.offline
                                  "GA" None))) Mock.offline Mock.unreachable).
    reflexivity.
  - apply (proj1 (proj2 (proj2 (stellar_failures_are_logged Mock.handler Mock.empty
                                  "GA" None))) Mock.empty).
    reflexivity.
Defined.

(** X20. The network passphrase is the public network's exactly when the
    configured [stellar.network] is the string [mainnet]; any other
    value, a missing one included, selects the test network. *)
Theorem getNetworkPassphrase_mainnet_only (configService_get : string → JsVal) :
  (StellarConfig.getNetworkPassphrase configService_get = PUBLIC ↔
   configService_get "stellar.network" = VStr "mainnet") ∧
  (configService_get "stellar.network" ≠ VStr "mainnet" →
   StellarConfig.getNetworkPassphrase configService_get = TESTNET).
Proof.
  unfold StellarConfig.getNetworkPassphrase, strict_eq. cbv zeta.
  split.
  - case_bool_decide; split; done.
  - intros Hne. by rewrite bool_decide_eq_false_2.
Qed.

(** The configuration of the end-to-end test, a missing setting, and a
    setting in capitals all select the test network. *)
Lemma getNetworkPassphrase_mainnet_only_witness :
  StellarConfig.getNetworkPassphrase test_config = TESTNET ∧
  StellarConfig.getNetworkPassphrase (λ _, VUndef) = TESTNET ∧
  StellarConfig.getNetworkPassphrase (λ _, VStr "MAINNET") = TESTNET.
Proof.
  split; [|split].
  - apply (proj2 (getNetworkPassphrase_mainnet_only test_config)).
    vm_compute. discriminate.
  - apply (proj2 (getNetworkPassphrase_mainnet_only (λ _, VUndef))). discriminate.
  - apply (proj2 (getNetworkPassphrase_mainnet_only (λ _, VStr "MAINNET"))).
    discriminate.
Defined.

(** X21. The wallet-transactions route always answers with a list: its
    first call asks Horizon for the 10 newest transactions of the key in
    the path, nothing lets the caller ask for more or fewer, and with
    Horizon keeping to the page size the list has at most 10 entries.  A
    rejected query gives the empty list, not an error. *)
Theorem getWalletTransactions_page_of_ten
    {W} (h : Handler W) (w : W) (publicKey : string) :
  let o := run h w (BlockchainController.getWalletTransactions publicKey) in
  ∃ entries rest,
    result o = Returned entries ∧
    calls (trace o) = Horizon_transactions publicKey 10 "desc" :: rest ∧
    (honours_limit h → (length entries ≤ 10)%nat) ∧
    (∀ w1 e, h w (Horizon_transactions publicKey 10 "desc") = (w1, Rejected e) →
             entries = []).
Proof.
  cbv zeta. unfold BlockchainController.getWalletTransactions.
  pose proof (getRecentTransactions_outcome h w publicKey None) as Hout.
  rewrite getRecentTransactions_run. cbv zeta in *. cbn [default] in *.
  destruct (h w (Horizon_transactions publicKey 10 "desc")) as [w1 [txs|e]] eqn:Hq.
  - destruct Hout as (entries & Hres & Hall).
    rewrite getRecentTransactions_run in Hres. cbv zeta in Hres.
    cbn [default] in Hres. rewrite Hq in Hres. cbn [result] in Hres.
    exists entries, (calls (trace (run h w1 (mapM StellarService.toTransactionDto txs)))).
    cbn [result trace calls]. split; [exact Hres|]. split; [reflexivity|]. split.
    + intros Hlimit. rewrite <- (Forall2_length _ _ _ Hall).
      pose proof (Hlimit _ _ _ _ _ _ Hq). lia.
    + discriminate.
  - exists [], []. cbn. repeat split; auto. lia.
Qed.

Lemma getWalletTransactions_page_of_ten_witness :
  ∃ entries,
    result (run Mock.handler Sample.funded
              (BlockchainController.getWalletTransactions "GA"))
    = Returned entries ∧
    (length entries ≤ 10)%nat.
Proof.
  destruct (getWalletTransactions_page_of_ten Mock.handler Sample.funded "GA")
    as (entries & rest & Hres & _ & Hlen & _).
  exists entries. split; [exact Hres|].
  exact (Hlen Mock_handler_honours_limit).
Defined.


(** * Further properties of registration and login together *)

(** X22. What [register] hands to the store under [password] is always
    what bcrypt answered for the request's password at cost 10, in
    failing runs as in successful ones; the other properties of the
    record are the request's own.  The password itself goes to bcrypt
    alone. *)
Theorem register_stores_bcrypt_output
    {W} (h : Handler W) (w : W) (dto : RegisterDto.t) (data : JsObject) :
  UserService_create data ∈ calls (trace (run h w (AuthService.register dto))) →
  ∃ w1 w2 hashedPassword,
    h w1 (bcrypt_hash (RegisterDto.password dto) 10) = (w2, Fulfilled hashedPassword) ∧
    data = <["password" := VStr hashedPassword]> (RegisterDto.props dto) ∧
    get data "password" = VStr hashedPassword ∧
    get data "email" = VStr (RegisterDto.email dto).
Proof.
  assert (∀ hashed, get (<["password" := VStr hashed]> (RegisterDto.props dto)) "password"
                    = VStr hashed ∧
                    get (<["password" := VStr hashed]> (RegisterDto.props dto)) "email"
                    = VStr (RegisterDto.email dto)) as Hget.
  { intros hashed. unfold get, RegisterDto.props.
    destruct (RegisterDto.name dto); split; by simplify_map_eq. }
  rewrite register_run.
  destruct (h w (UserService_findByEmail _)) as [w1 [[u|]|e]] eqn:E; cbn.
  - intros Hin. repeat (apply elem_of_cons in Hin as [Hin|Hin]);
      try discriminate; by apply elem_of_nil in Hin.
  - destruct (h w1 (bcrypt_hash _ _)) as [w2 [hashed|e2]] eqn:Ehash; cbn.
    + destruct (h w2 (UserService_create _)) as [w3 [user|e3]]; cbn.
      * destruct (h w3 (JwtService_sign _)) as [w4 [t|e4]]; cbn;
          intros Hin;
          repeat (apply elem_of_cons in Hin as [Hin|Hin]);
          try discriminate; try (by apply elem_of_nil in Hin);
          injection Hin as ->; exists w1, w2, hashed;
          destruct (Hget hashed); done.
      * intros Hin.
        repeat (apply elem_of_cons in Hin as [Hin|Hin]);
          try discriminate; try (by apply elem_of_nil in Hin).
        injection Hin as ->. exists w1, w2, hashed. destruct (Hget hashed); done.
    + intros Hin. repeat (apply elem_of_cons in Hin as [Hin|Hin]);
        try discriminate; by apply elem_of_nil in Hin.
  - intros Hin. repeat (apply elem_of_cons in Hin as [Hin|Hin]);
      try discriminate; by apply elem_of_nil in Hin.
Qed.

(** With the signer out of order the record still reaches the store, and
    its password is the hash. *)
Lemma register_stores_bcrypt_output_witness :
  ∃ w1 w2 hashedPassword,
    signer_down w1 (bcrypt_hash "password123" 10) = (w2, Fulfilled hashedPassword) ∧
    <["password" := VStr "$2b$10$password123"]> (RegisterDto.props Sample.registration)
    = <["password" := VStr hashedPassword]> (RegisterDto.props Sample.registration) ∧
    get (<["password" := VStr "$2b$10$password123"]>
           (RegisterDto.props Sample.registration)) "password"
    = VStr hashedPassword ∧
    get (<["password" := VStr "$2b$10$password123"]>
           (RegisterDto.props Sample.registration)) "email"
    = VStr "a@x.com".
Proof.
  apply (register_stores_bcrypt_output signer_down Mock.empty Sample.registration).
  vm_compute. do 2 apply list_elem_of_further. apply list_elem_of_here.
Defined.

(** X23. [login] is [validateUser] followed by the signer: it throws the
    invalid-credentials exception exactly when [validateUser] resolves
    to [null], and an error [validateUser] throws is the error [login]
    throws. *)
Theorem login_invalid_iff_validateUser_null
    {W} (h : Handler W) (w : W) (dto : LoginDto.t) :
  let validated_user :=
    run h w (AuthService.validateUser (LoginDto.email dto) (LoginDto.password dto)) in
  (result (run h w (AuthService.login dto)) = Threw InvalidCredentials ↔
   result validated_user = Returned None) ∧
  (∀ e, result validated_user = Threw e →
        result (run h w (AuthService.login dto)) = Threw e).
Proof.
  cbv zeta. unfold AuthService.login.
  rewrite run_bind. cbv zeta.
  unfold AuthService.validateUser. cbn.
  destruct (h w (UserService_findByEmail _)) as [w1 [[u|]|e1]]; cbn.
  - destruct (truthy (get u "password")); cbn.
    + destruct (h w1 (bcrypt_compare _ _)) as [w2 [[|]|e2]]; cbn.
      * destruct (h w2 (JwtService_sign _)) as [w3 [t|e3]]; cbn;
          (split; [split; discriminate|discriminate]).
      * split; [done|discriminate].
      * split; [split; discriminate|]. by intros e [= <-].
    + split; [done|discriminate].
  - split; [done|discriminate].
  - split; [split; discriminate|]. by intros e [= <-].
Qed.

(** A wrong password for the registered sample user. *)
Lemma login_invalid_iff_validateUser_null_witness :
  result (run Mock.handler Sample.registered (AuthService.login Sample.bad_login))
  = Threw InvalidCredentials.
Proof.
  apply (proj1 (login_invalid_iff_validateUser_null Mock.handler Sample.registered
                  Sample.bad_login)).
  vm_compute. reflexivity.
Defined.
